(** * liteorm: reflection-driven SQL generation, embedded in Rocq

    A shallow embedding of [reflection.go] (type and value introspection, the
    session facade) and [sql.go] (the statement builders) of liteorm, with the
    parts of Go's [reflect], [fmt], [strings] and [strconv] packages that the
    program calls.

    Conventions:
    - a Go [string] is a [string] of bytes;
    - a Go [int] is a [Z] kept in the 64-bit signed range by [wrapInt];
    - a Go [error] is a value of [error]; a function returning [(T, error)]
      returns a [result T];
    - a function that may panic returns an [outcome]. *)

From Stdlib Require Import ZArith String Ascii List Bool Lia.
From Stdlib Require Import DecimalString DecimalPos.
Import ListNotations.

Open Scope Z_scope.
Open Scope string_scope.

(** ** Outcomes, errors *)

(** What a Go call does: it returns, or it panics. *)
Inductive outcome (A : Type) : Type :=
| Returns (a : A)
| Panics (msg : string).
Arguments Returns {A} a.
Arguments Panics {A} msg.

Definition bind {A B : Type} (m : outcome A) (k : A -> outcome B) : outcome B :=
  match m with
  | Returns a => k a
  | Panics msg => Panics msg
  end.

Notation "x <- m ;; k" := (bind m (fun x => k))
  (at level 61, m at next level, right associativity).

(** Go errors as the program builds them: [errors.New] and [fmt.Errorf] make
    a fresh error out of a message, [errors.Wrap] puts a message in front of
    a cause. *)
Inductive error : Type :=
| errNew (msg : string)
| errWrap (cause : error) (msg : string).

(** [err.Error()] *)
Fixpoint Error (e : error) : string :=
  match e with
  | errNew msg => msg
  | errWrap cause msg => msg ++ ": " ++ Error cause
  end.

Inductive result (A : Type) : Type :=
| Ok (a : A)
| Err (e : error).
Arguments Ok {A} a.
Arguments Err {A} e.

(** ** Machine integers *)

(** Go's [int] on a 64-bit platform. *)
Definition intSize : Z := 64.
Definition minInt : Z := - 2 ^ 63.
Definition maxInt : Z := 2 ^ 63 - 1.

(** Two's complement wrap-around of [int] arithmetic. *)
Definition wrapInt (z : Z) : Z := (z + 2 ^ 63) mod 2 ^ 64 - 2 ^ 63.

(** The wrap-around of a signed integer of [bits] bits. *)
Definition wrapBits (bits : Z) (z : Z) : Z :=
  (z + 2 ^ (bits - 1)) mod 2 ^ bits - 2 ^ (bits - 1).

(** ** Strings *)

Definition isUpperASCII (c : ascii) : bool :=
  let n := N_of_ascii c in ((65 <=? n) && (n <=? 90))%N.

Definition isDigit (c : ascii) : bool :=
  let n := N_of_ascii c in ((48 <=? n) && (n <=? 57))%N.

(** [c >= utf8.RuneSelf] is false. *)
Definition isASCIIByte (c : ascii) : bool := (N_of_ascii c <? 128)%N.

Definition lowerByte (c : ascii) : ascii :=
  if isUpperASCII c then ascii_of_N (N_of_ascii c + 32) else c.

Fixpoint isASCII (s : string) : bool :=
  match s with
  | EmptyString => true
  | String c rest => isASCIIByte c && isASCII rest
  end.

Fixpoint mapBytes (f : ascii -> ascii) (s : string) : string :=
  match s with
  | EmptyString => EmptyString
  | String c rest => String (f c) (mapBytes f rest)
  end.

(** Substring test, used to say what a message mentions. *)
Fixpoint contains (sub s : string) : bool :=
  String.prefix sub s ||
  match s with
  | EmptyString => false
  | String _ rest => contains sub rest
  end.

(** [%d] of an integer: decimal digits, with a minus sign when negative. *)
Definition itoa (z : Z) : string := NilZero.string_of_int (Z.to_int z).

(** ** [reflect.Kind] *)

Inductive Kind : Type :=
| Invalid | Bool | Int | Int8 | Int16 | Int32 | Int64
| Uint | Uint8 | Uint16 | Uint32 | Uint64 | Uintptr
| Float32 | Float64 | Complex64 | Complex128
| Array | Chan | Func | Interface | Map | Pointer | Slice
| String_ | Struct | UnsafePointer.

Definition Kind_eq_dec (a b : Kind) : {a = b} + {a <> b}.
Proof. decide equality. Defined.

Definition Kind_eqb (a b : Kind) : bool :=
  if Kind_eq_dec a b then true else false.

(** [Kind.String()] *)
Definition Kind_String (k : Kind) : string :=
  match k with
  | Invalid => "invalid" | Bool => "bool" | Int => "int" | Int8 => "int8"
  | Int16 => "int16" | Int32 => "int32" | Int64 => "int64"
  | Uint => "uint" | Uint8 => "uint8" | Uint16 => "uint16"
  | Uint32 => "uint32" | Uint64 => "uint64" | Uintptr => "uintptr"
  | Float32 => "float32" | Float64 => "float64"
  | Complex64 => "complex64" | Complex128 => "complex128"
  | Array => "array" | Chan => "chan" | Func => "func"
  | Interface => "interface" | Map => "map" | Pointer => "ptr"
  | Slice => "slice" | String_ => "string" | Struct => "struct"
  | UnsafePointer => "unsafe.Pointer"
  end.

(** The signed integer kinds, each with its width: the kinds on which
    [Value.Int] and [Value.SetInt] do not panic. *)
Definition intBits (k : Kind) : option Z :=
  match k with
  | Int => Some intSize
  | Int8 => Some 8
  | Int16 => Some 16
  | Int32 => Some 32
  | Int64 => Some 64
  | _ => None
  end.

(** ** [fmt.Sprintf] *)

Inductive fmtArg : Type :=
| FStr (s : string)
| FInt (z : Z).

(** One operand under the verb [%s]. *)
Definition fmtS (a : fmtArg) : string :=
  match a with
  | FStr s => s
  | FInt z => "%!s(int=" ++ itoa z ++ ")"
  end.

(** One operand under the verb [%d]. *)
Definition fmtD (a : fmtArg) : string :=
  match a with
  | FInt z => itoa z
  | FStr s => "%!d(string=" ++ s ++ ")"
  end.

(** [fmt.Sprintf] for the verbs the program uses, [%s] and [%d], without
    flags, width or precision.  A verb without an operand prints
    [%!v(MISSING)]; the program never passes operands beyond the verbs. *)
Fixpoint Sprintf (format : string) (args : list fmtArg) : string :=
  match format with
  | EmptyString => EmptyString
  | String c rest =>
      if Ascii.eqb c "%" then
        match rest with
        | EmptyString => "%!(NOVERB)"
        | String v rest' =>
            if Ascii.eqb v "%" then String "%" (Sprintf rest' args)
            else
              match args with
              | [] => "%!" ++ String v "(MISSING)" ++ Sprintf rest' []
              | a :: args' =>
                  (if Ascii.eqb v "s" then fmtS a
                   else if Ascii.eqb v "d" then fmtD a
                   else "%!" ++ String v "(BADVERB)")
                  ++ Sprintf rest' args'
              end
        end
      else String c (Sprintf rest args)
  end.

(** ** [strconv.Atoi] *)

(** The digits of [s] read in base 10 onto the accumulator, [None] at the
    first byte that is not a digit. *)
Fixpoint parseDigits (s : string) (acc : Z) : option Z :=
  match s with
  | EmptyString => Some acc
  | String c rest =>
      if isDigit c
      then parseDigits rest (acc * 10 + Z.of_N (N_of_ascii c - 48))
      else None
  end.

(** The errors under a [*strconv.NumError]. *)
Definition ErrSyntax : error := errNew "invalid syntax".
Definition ErrRange : error := errNew "value out of range".

(** [strconv.Atoi]: an optional sign, then at least one decimal digit, and
    a value that fits [int]; [ErrSyntax] or [ErrRange] otherwise.  The fast
    path of the library (short strings) and its slow path ([ParseInt] in
    base 10) accept the same strings with the same values. *)
Definition Atoi (s : string) : result Z :=
  let '(neg, digits) :=
    match s with
    | String c rest =>
        if Ascii.eqb c "-" then (true, rest)
        else if Ascii.eqb c "+" then (false, rest)
        else (false, s)
    | EmptyString => (false, s)
    end in
  match digits with
  | EmptyString => Err ErrSyntax
  | _ =>
      match parseDigits digits 0 with
      | None => Err ErrSyntax
      | Some n =>
          let v := if neg then - n else n in
          if ((minInt <=? v) && (v <=? maxInt))%Z then Ok v else Err ErrRange
      end
  end.

(** ** [reflect.Type] and [reflect.StructField] *)

(** A struct tag in parsed form: its [key:value] pairs, in the order of
    the tag string. *)
Definition StructTag : Type := list (string * string).

(** [tag.Get(key)]: the value of the first pair under [key], the empty
    string when there is none. *)
Fixpoint Tag_Get (tag : StructTag) (key : string) : string :=
  match tag with
  | [] => ""
  | (k, v) :: rest => if k =? key then v else Tag_Get rest key
  end.

(** A type as [reflect] describes it: [tElem] for arrays, channels, maps,
    pointers and slices, [tFields] for structs.  In a [StructField],
    [PkgPath] is empty exactly for an exported field. *)
#[warnings="-register-all"]
Inductive rtype : Type :=
  mkType { tName : string; tPkgPath : string; tKind : Kind;
           tElem : option rtype; tFields : list StructField }
with StructField : Type :=
  mkField { Name : string; PkgPath : string; FType : rtype; Tag : StructTag }.

(** [t.Elem()] *)
Definition Elem (t : rtype) : outcome rtype :=
  match tKind t, tElem t with
  | (Array | Chan | Map | Pointer | Slice), Some e => Returns e
  | _, _ => Panics ("reflect: Elem of invalid type " ++ tName t)
  end.

(** [t.NumField()] *)
Definition NumField (t : rtype) : outcome nat :=
  match tKind t with
  | Struct => Returns (List.length (tFields t))
  | _ => Panics ("reflect: NumField of non-struct type " ++ tName t)
  end.

(** idColumnType is the PostgreSQL column type for ID columns. *)
Definition idColumnType : string := "bigserial".

(** getLengthTag returns the integer associated with the "pglen" tag of a
    reflect.StructField. *)
Definition getLengthTag (field : StructField) : result Z :=
  let stag := Tag_Get (Tag field) "pglen" in
  if stag =? "" then
    Err (errNew (Sprintf "len tag not present for field %s" [FStr (Name field)]))
  else
    match Atoi stag with
    | Err _ =>
        Err (errNew (Sprintf "len tag of field %s cannot be converted to int"
                             [FStr (Name field)]))
    | Ok itag => Ok itag
    end.

(** mapColumnType maps a reflect.StructField object to a PostgreSQL column
    type. *)
Definition mapColumnType (field : StructField) : outcome (result string) :=
  match tKind (FType field) with
  | Int => Returns (Ok "int")
  | Int64 => Returns (Ok "bigint")
  | String_ =>
      match getLengthTag field with
      | Err err => Returns (Err err)
      | Ok lenTag => Returns (Ok (Sprintf "varchar(%d)" [FInt lenTag]))
      end
  | Struct =>
      let fieldTypeName :=
        Sprintf "%s.%s" [FStr (tPkgPath (FType field)); FStr (tName (FType field))] in
      if fieldTypeName =? "time.Time" then Returns (Ok "timestamp")
      else Returns (Err (errNew
             (Sprintf "unsupported struct type - %s" [FStr fieldTypeName])))
  | Slice =>
      elem <- Elem (FType field) ;;
      let fieldSliceKind := tKind elem in
      match fieldSliceKind with
      | Uint8 => Returns (Ok "bytea")
      | _ => Returns (Err (errNew
               (Sprintf "unsupported slice kind - %s"
                        [FStr (Kind_String fieldSliceKind)])))
      end
  | k => Returns (Err (errNew
           (Sprintf "unsupported field kind - %s" [FStr (Kind_String k)])))
  end.

(** ** Values *)

(** A Go value with its dynamic type.  [VPointer t None] is a nil pointer;
    [VOther] stands for the kinds the program never looks into. *)
#[warnings="-register-all"]
Inductive value : Type :=
| VInt (t : rtype) (n : Z)
| VString (t : rtype) (s : string)
| VStruct (t : rtype) (fields : list value)
| VPointer (t : rtype) (target : option value)
| VOther (t : rtype).

(** [reflect.TypeOf] *)
Definition TypeOf (v : value) : rtype :=
  match v with
  | VInt t _ | VString t _ | VStruct t _ | VPointer t _ | VOther t => t
  end.

(** A [reflect.Value]: [rv = None] is the zero Value, [addressable] is
    [CanAddr], [readOnly] marks a value reached through an unexported
    field. *)
Record Value : Type := mkValue {
  rv : option value;
  addressable : bool;
  readOnly : bool
}.

Definition zeroValue : Value := mkValue None false false.

(** [reflect.ValueOf]: the copy held by the interface, not addressable. *)
Definition ValueOf (arg : value) : Value := mkValue (Some arg) false false.

(** [v.Kind()] *)
Definition Value_Kind (v : Value) : Kind :=
  match rv v with
  | None => Invalid
  | Some x => tKind (TypeOf x)
  end.

(** [v.IsValid()] *)
Definition IsValid (v : Value) : bool :=
  match rv v with
  | None => false
  | Some _ => true
  end.

(** [v.CanSet()] *)
Definition CanSet (v : Value) : bool := addressable v && negb (readOnly v).

(** [v.Elem()] of a pointer: what it points to, addressable; the zero Value
    for nil. *)
Definition Value_Elem (v : Value) : Value :=
  match rv v with
  | Some (VPointer _ (Some target)) => mkValue (Some target) true (readOnly v)
  | _ => zeroValue
  end.

(** The index of the first field called [name]. *)
Fixpoint fieldIndex (fields : list StructField) (name : string) : option nat :=
  match fields with
  | [] => None
  | field :: rest =>
      if Name field =? name then Some O
      else option_map S (fieldIndex rest name)
  end.

(** [v.Field(i)] of a struct: addressable as the struct is, read-only when
    the field is not exported. *)
Definition Value_Field (v : Value) (i : nat) : Value :=
  match rv v with
  | Some (VStruct t fields) =>
      match nth_error (tFields t) i, nth_error fields i with
      | Some field, Some x =>
          mkValue (Some x) (addressable v)
                  (readOnly v || negb (PkgPath field =? ""))
      | _, _ => zeroValue
      end
  | _ => zeroValue
  end.

(** [v.FieldByName(name)]: the zero Value when the struct has no such
    field.  Fields promoted from embedded structs are not modelled. *)
Definition FieldByName (v : Value) (name : string) : Value :=
  match rv v with
  | Some (VStruct t _) =>
      match fieldIndex (tFields t) name with
      | Some i => Value_Field v i
      | None => zeroValue
      end
  | _ => zeroValue
  end.

(** [v.Int()]: panics unless the kind is a signed integer kind. *)
Definition Value_Int (v : Value) : outcome Z :=
  match intBits (Value_Kind v), rv v with
  | Some _, Some (VInt _ n) => Returns n
  | _, _ => Panics ("reflect: call of reflect.Value.Int on "
                    ++ Kind_String (Value_Kind v) ++ " Value")
  end.

(** What [v.SetInt(x)] stores: [x] cut to the width of the kind; it panics
    unless the kind is a signed integer kind. *)
Definition SetInt (v : Value) (x : Z) : outcome value :=
  match intBits (Value_Kind v), rv v with
  | Some bits, Some old => Returns (VInt (TypeOf old) (wrapBits bits x))
  | _, _ => Panics ("reflect: call of reflect.Value.SetInt on "
                    ++ Kind_String (Value_Kind v) ++ " Value")
  end.

(** [l] with its element at index [i] replaced. *)
Fixpoint setNth {A : Type} (l : list A) (i : nat) (x : A) : list A :=
  match l, i with
  | [], _ => []
  | _ :: rest, O => x :: rest
  | y :: rest, S j => y :: setNth rest j x
  end.

(** The argument once the field [name] of the struct it points to holds
    [x]: the store after an assignment through [reflect].  Only a struct
    behind a pointer can be assigned to. *)
Definition storeField (arg : value) (name : string) (x : value) : value :=
  match arg with
  | VPointer pt (Some (VStruct t fields)) =>
      match fieldIndex (tFields t) name with
      | Some i => VPointer pt (Some (VStruct t (setNth fields i x)))
      | None => arg
      end
  | _ => arg
  end.

(** getObjectValue receives either a struct or pointer to struct type as
    argument, and returns its reflect.Value. If pointer, the value is
    dereferenced. *)
Definition getObjectValue (arg : value) : result Value :=
  let argv := ValueOf arg in
  let argv :=
    if Kind_eqb (Value_Kind argv) Pointer then Value_Elem argv else argv in
  if negb (Kind_eqb (Value_Kind argv) Struct) then
    Err (errNew "provided argument is not a struct or pointer to struct")
  else Ok argv.

(** getObjectType receives either a struct or pointer to struct type as
    argument, and returns its reflect.Type. If pointer, the value is
    dereferenced. *)
Definition getObjectType (arg : value) : outcome (result rtype) :=
  let argt := TypeOf arg in
  argt <- (if Kind_eqb (tKind argt) Pointer then Elem argt else Returns argt) ;;
  if negb (Kind_eqb (tKind argt) Struct) then
    Returns (Err (errNew "provided argument is not a pointer"))
  else Returns (Ok argt).

(** setIDValue sets the ID field of the object received as argument.  It
    returns its error together with the argument as the call leaves it. *)
Definition setIDValue (arg : value) (x : Z) : outcome (option error * value) :=
  match getObjectValue arg with
  | Err err => Returns (Some err, arg)
  | Ok argv =>
      let idField := FieldByName argv "ID" in
      if negb (IsValid idField) || negb (CanSet idField) then
        Returns (Some (errNew
          "could not set the ID field after inserting the object"), arg)
      else
        stored <- SetInt idField x ;;
        Returns (None, storeField arg "ID" stored)
  end.

(** getIDValue gets the ID field of the object received as argument. *)
Definition getIDValue (arg : value) : outcome (result Z) :=
  match getObjectValue arg with
  | Err err => Returns (Err err)
  | Ok argv =>
      let idField := FieldByName argv "ID" in
      if negb (IsValid idField) then
        Returns (Err (errNew
          "could not set the ID field after inserting the object"))
      else
        n <- Value_Int idField ;;
        Returns (Ok n)
  end.

(** [v.Interface()]: panics on a value reached through an unexported
    field. *)
Definition Value_Interface (v : Value) : outcome value :=
  match rv v with
  | Some x =>
      if readOnly v then
        Panics ("reflect.Value.Interface: cannot return value obtained "
                ++ "from unexported field or method")
      else Returns x
  | None => Panics "reflect: call of reflect.Value.Interface on zero Value"
  end.

(** The loop of [buildStatementValues], at index [i], with the fields from
    [i] on. *)
Fixpoint valuesLoop (argv : Value) (i : nat) (fields : list StructField)
    (values : list value) : outcome (list value) :=
  match fields with
  | [] => Returns values
  | field :: rest =>
      if Name field =? "ID" then valuesLoop argv (i + 1) rest values
      else
        x <- Value_Interface (Value_Field argv i) ;;
        valuesLoop argv (i + 1) rest (values ++ [x])%list
  end.

Definition buildStatementValues (arg : value) : outcome (result (list value)) :=
  match getObjectValue arg with
  | Err err => Returns (Err err)
  | Ok argv =>
      match rv argv with
      | Some x =>
          values <- valuesLoop argv 0 (tFields (TypeOf x)) [] ;;
          Returns (Ok values)
      | None => Panics "reflect: call of reflect.Value.Type on zero Value"
      end
  end.

(** ** The driver *)

(** [pgconn.CommandTag], of which the program reads [RowsAffected]. *)
Record CommandTag : Type := mkCommandTag { RowsAffected : Z }.

(** A session: what the connection answers to one round trip.
    [QueryRowScan] is [QueryRow(...).Scan(&lastID)], the scanned identity
    or the error of the scan; [Exec] is the command tag and the error of
    [Conn.Exec]. *)
Record Database : Type := mkDatabase {
  QueryRowScan : string -> list value -> result Z;
  Exec : string -> list value -> CommandTag * option error
}.

(** The error of an update that did not affect exactly one row. *)
Definition ErrUnexpectedRowCount : error :=
  errNew "incorrect number of rows affected after updating the object".

(** The boxed [int64] that [UpdateOne] passes as first parameter. *)
Definition int64Type : rtype := mkType "int64" "" Int64 None [].

(** ** Types and values of the examples *)

Definition intType : rtype := mkType "int" "" Int None [].
Definition stringType : rtype := mkType "string" "" String_ None [].
Definition boolType : rtype := mkType "bool" "" Bool None [].
Definition uint8Type : rtype := mkType "uint8" "" Uint8 None [].
Definition bytesType : rtype := mkType "" "" Slice (Some uint8Type) [].
Definition timeType : rtype := mkType "Time" "time" Struct None [].

(** A struct type of package [liteorm] with the given fields. *)
Definition structType (name : string) (fields : list StructField) : rtype :=
  mkType name "liteorm" Struct None fields.

Definition pointerTo (t : rtype) : rtype := mkType "" "" Pointer (Some t) [].

(** [TestItem] of the test file. *)
Definition TestItemType : rtype :=
  structType "TestItem"
    [ mkField "ID" "" int64Type [("pgsql", "primary key")];
      mkField "StringColumn" "" stringType [("pglen", "25")];
      mkField "IntColumn" "" intType [];
      mkField "TimeColumn" "" timeType [];
      mkField "BLOBColumn" "" bytesType [] ].

(** The object [TestInsert] builds, its ID still zero. *)
Definition testObject : value :=
  VStruct TestItemType
    [ VInt int64Type 0; VString stringType "lashbits.tech";
      VInt intType 1337; VStruct timeType []; VOther bytesType ].

(** A record whose identity is declared last. *)
Definition TrailingIDType : rtype :=
  structType "Note"
    [ mkField "Title" "" stringType [("pglen", "40")];
      mkField "ID" "" int64Type [("pgsql", "primary key")] ].

(** A record with nothing but its identity. *)
Definition OnlyIDType : rtype :=
  structType "Token" [ mkField "ID" "" int64Type [("pgsql", "primary key")] ].

(** A record whose identity field is spelled "Id", and a record whose "ID"
    carries no tag. *)
Definition LowerIdType : rtype :=
  structType "Account" [ mkField "Id" "" stringType [] ].

Definition UntaggedIDType : rtype :=
  structType "Entry" [ mkField "ID" "" int64Type [] ].

(** A record whose "ID" is a string. *)
Definition StringIDType : rtype :=
  structType "Label" [ mkField "ID" "" stringType [("pglen", "8")] ].

Definition stringIDObject : value :=
  VStruct StringIDType [ VString stringType "a" ].

(** An instance of the Unicode tables for the closed examples below: they
    are ASCII, where [strings.ToLower] does not consult the tables. *)
Definition noUnicode (s : string) : string := s.

(** A connection whose round trips succeed: every insert returns the
    identity [lastID], every command affects [rows] rows. *)
Definition answering (lastID rows : Z) : Database :=
  mkDatabase (fun _ _ => Ok lastID) (fun _ _ => (mkCommandTag rows, None)).

(** ** Slices and fresh values *)

(** getSliceValue receives a pointer to a slice type as argument (of type
    interface{}) and returns the value (of type reflect.Value). *)
Definition getSliceValue (arg : value) : result Value :=
  if Kind_eqb (tKind (TypeOf arg)) Pointer then
    let slice := Value_Elem (ValueOf arg) in
    if Kind_eqb (Value_Kind slice) Slice then Ok slice
    else Err (errNew "provided argument is not a pointer to a slice")
  else Err (errNew "provided argument is not a pointer").

(** [v.Type()] *)
Definition Value_Type (v : Value) : outcome rtype :=
  match rv v with
  | Some x => Returns (TypeOf x)
  | None => Panics "reflect: call of reflect.Value.Type on zero Value"
  end.

(** getSliceElemType receives a pointer to a slice type as argument and
    returns the type of the slice elements. *)
Definition getSliceElemType (arg : value) : outcome (result rtype) :=
  if negb (Kind_eqb (tKind (TypeOf arg)) Pointer) then
    Returns (Err (errNew "provided argument is not a pointer type"))
  else
    let slice := Value_Elem (ValueOf arg) in
    if negb (Kind_eqb (Value_Kind slice) Slice) then
      Returns (Err (errNew "provided argument is not a pointer to a slice"))
    else
      st <- Value_Type slice ;;
      et <- Elem st ;;
      t <- Elem et ;;
      Returns (Ok t).

(** The zero value of a type, as [reflect.New] allocates it. *)
Fixpoint zeroOf (t : rtype) : value :=
  match intBits (tKind t), tKind t with
  | Some _, _ => VInt t 0
  | None, String_ => VString t ""
  | None, Struct => VStruct t (map (fun field => zeroOf (FType field)) (tFields t))
  | None, Pointer => VPointer t None
  | None, _ => VOther t
  end.

(** [reflect.New(t).Interface()]: a pointer to a fresh zero value. *)
Definition New (t : rtype) : value := VPointer (pointerTo t) (Some (zeroOf t)).

(** buildSliceFromFields generates an slice of type []interface{}, where
    each element is of the same type as the fields of the first argument:
    [slice[i]] is a pointer to a fresh value of the type of field [i]. *)
Definition buildSliceFromFields (arg : rtype) : outcome (list value) :=
  n <- NumField arg ;;
  Returns (map (fun field => New (FType field)) (tFields arg)).

(** [x] seen at the type [t], which its own type is assignable to. *)
Definition withType (t : rtype) (x : value) : value :=
  match x with
  | VInt _ n => VInt t n
  | VString _ s => VString t s
  | VStruct _ fields => VStruct t fields
  | VPointer _ target => VPointer t target
  | VOther _ => VOther t
  end.

(** The argument once the struct it points to holds the field values
    [vals]; a struct passed by value is a copy, which stays as it is. *)
Definition storeFields (arg : value) (vals : list value) : value :=
  match arg with
  | VPointer pt (Some (VStruct t _)) => VPointer pt (Some (VStruct t vals))
  | _ => arg
  end.

(** What [Scan] does with the slots it is given: the slots as it leaves
    them and its error. *)
Definition scanner : Type := list value -> list value * option error.

(** The queries of a connection: [QueryRow] answers with the scan of its
    row; [Query] answers with the scans of its rows, in the order
    [rows.Next] reaches them, and its error. *)
Record Queries : Type := mkQueries {
  QueryRow : string -> list value -> scanner;
  Query : string -> list value -> list scanner * option error
}.

(** An instance of assignability for the closed examples: types of the
    same name, package and kind. *)
Definition sameNamedType (a b : rtype) : bool :=
  (tName a =? tName b) && (tPkgPath a =? tPkgPath b)
  && Kind_eqb (tKind a) (tKind b).

(** The slots of a row once a scan has stored [row] in them. *)
Definition slotsHolding (fields : list StructField) (row : list value)
    : list value :=
  map (fun p => VPointer (pointerTo (FType (fst p))) (Some (snd p)))
      (combine fields row).

(** A scan that stores [row] in the slots and succeeds. *)
Definition scanning (fields : list StructField) (row : list value) : scanner :=
  fun _ => (slotsHolding fields row, None).

(** The row of [testObject] with the identity 7. *)
Definition testRow : list value :=
  [ VInt int64Type 7; VString stringType "lashbits.tech";
    VInt intType 1337; VStruct timeType []; VOther bytesType ].

(** A record with a field that is not exported. *)
Definition SecretType : rtype :=
  structType "Secret"
    [ mkField "ID" "" int64Type [("pgsql", "primary key")];
      mkField "note" "liteorm" stringType [("pglen", "10")] ].

Definition secretObject : value :=
  VStruct SecretType [ VInt int64Type 0; VString stringType "x" ].



(** A record with a field that has no column type. *)
Definition FlaggedType : rtype :=
  structType "Flagged"
    [ mkField "ID" "" int64Type [("pgsql", "primary key")];
      mkField "Flag" "" boolType [];
      mkField "Title" "" stringType [] ].

(** Connections for the examples: one whose queries scan the given rows
    into records of the given fields, one whose scans fail. *)
Definition answeringRows (fields : list StructField)
    (rows : list (list value)) : Queries :=
  mkQueries (fun _ _ => scanning fields (hd [] rows))
            (fun _ _ => (map (scanning fields) rows, None)).

Definition failingScan (err : error) : scanner :=
  fun slots => (slots, Some err).

Definition failingRows (fields : list StructField)
    (rows : list (list value)) (err : error) : Queries :=
  mkQueries (fun _ _ => failingScan err)
            (fun _ _ => ((map (scanning fields) rows ++ [failingScan err])%list,
                         None)).

Section Liteorm.

(** [strings.Map(unicode.ToLower, s)] on a string that holds a byte outside
    ASCII: the Unicode case tables are not part of the program. *)
Variable unicodeToLower : string -> string.

(** [strings.ToLower]: on an ASCII string the bytes [A]..[Z] move to
    [a]..[z]; any other string goes through the Unicode tables. *)
Definition ToLower (s : string) : string :=
  if isASCII s then mapBytes lowerByte s else unicodeToLower s.

(** buildTableName generates the table name from the type name. It sets all
    characters to lower and adds an extra "s" for the plural form of the
    noun. *)
Definition BuildTableName (t : rtype) : string :=
  Sprintf "%ss" [FStr (ToLower (tName t))].

(** The loop of [buildCreateStatement], at index [i] of [n] fields, with
    the fields from [i] on. *)
Fixpoint createLoop (n i : nat) (fields : list StructField)
    (sqlStatement : string) : outcome (result string) :=
  match fields with
  | [] => Returns (Ok sqlStatement)
  | field :: rest =>
      let columnName := ToLower (Name field) in
      r <- (if columnName =? "id" then Returns (Ok idColumnType)
            else mapColumnType field) ;;
      match r with
      | Err err => Returns (Err err)
      | Ok columnType =>
          let pgsqlTag := Tag_Get (Tag field) "pgsql" in
          let sqlStatement :=
            sqlStatement ++
            Sprintf "%s %s %s" [FStr columnName; FStr columnType; FStr pgsqlTag] in
          let sqlStatement :=
            if (i + 1 <? n)%nat then sqlStatement ++ "," else sqlStatement in
          createLoop n (i + 1) rest sqlStatement
      end
  end.

(** buildCreateStatement uses reflection to build an SQL create statement
    based on the name and fields of the argument type. *)
Definition buildCreateStatement (argt : rtype) : outcome (result string) :=
  let tableName := BuildTableName argt in
  let sqlStatement := Sprintf "create table %s (" [FStr tableName] in
  n <- NumField argt ;;
  r <- createLoop n 0 (tFields argt) sqlStatement ;;
  match r with
  | Err err => Returns (Err err)
  | Ok sqlStatement => Returns (Ok (sqlStatement ++ ");"))
  end.

(** The loop of [buildSelectStatement]. *)
Fixpoint selectLoop (n i : nat) (fields : list StructField)
    (columnNames : string) : string :=
  match fields with
  | [] => columnNames
  | field :: rest =>
      let columnNames := columnNames ++ ToLower (Name field) in
      let columnNames :=
        if (i + 1 <? n)%nat then columnNames ++ "," else columnNames in
      selectLoop n (i + 1) rest columnNames
  end.

Definition buildSelectStatement (argt : rtype) (clauses : string)
    : outcome string :=
  let tableName := BuildTableName argt in
  n <- NumField argt ;;
  let columnNames := selectLoop n 0 (tFields argt) "" in
  Returns (Sprintf "select %s from %s %s;"
                   [FStr columnNames; FStr tableName; FStr clauses]).

(** The loop of [buildInsertStatement]: the state is
    [(columnNames, valueIndices, nextIdx)]. *)
Fixpoint insertLoop (n i : nat) (fields : list StructField)
    (st : string * string * Z) : string * string * Z :=
  match fields with
  | [] => st
  | field :: rest =>
      if Name field =? "ID" then insertLoop n (i + 1) rest st
      else
        let '(columnNames, valueIndices, nextIdx) := st in
        let columnNames := columnNames ++ ToLower (Name field) in
        let valueIndices := valueIndices ++ Sprintf "$%d" [FInt nextIdx] in
        let nextIdx := wrapInt (nextIdx + 1) in
        if (i + 1 <? n)%nat
        then insertLoop n (i + 1) rest
               (columnNames ++ ",", valueIndices ++ ",", nextIdx)
        else insertLoop n (i + 1) rest (columnNames, valueIndices, nextIdx)
  end.

Definition buildInsertStatement (argt : rtype) : outcome string :=
  n <- NumField argt ;;
  let '(columnNames, valueIndices, _) :=
    insertLoop n 0 (tFields argt) ("", "", 1) in
  let tableName := BuildTableName argt in
  Returns (Sprintf "insert into %s (%s) values (%s) returning id;"
                   [FStr tableName; FStr columnNames; FStr valueIndices]).

(** The loop of [buildUpdateStatement]: the state is [(set, nextIdx)]. *)
Fixpoint updateLoop (n i : nat) (fields : list StructField)
    (st : string * Z) : string * Z :=
  match fields with
  | [] => st
  | field :: rest =>
      if Name field =? "ID" then updateLoop n (i + 1) rest st
      else
        let '(set, nextIdx) := st in
        let set := set ++ Sprintf "%s = $%d" [FStr (Name field); FInt nextIdx] in
        let nextIdx := wrapInt (nextIdx + 1) in
        if (i + 1 <? n)%nat
        then updateLoop n (i + 1) rest (set ++ ",", nextIdx)
        else updateLoop n (i + 1) rest (set, nextIdx)
  end.

Definition buildUpdateStatement (argt : rtype) (clauses : string) (nextIdx : Z)
    : outcome (string * Z) :=
  n <- NumField argt ;;
  let '(set, nextIdx) := updateLoop n 0 (tFields argt) ("", nextIdx) in
  let tableName := BuildTableName argt in
  Returns (Sprintf "update %s set %s %s;"
                   [FStr tableName; FStr set; FStr clauses], nextIdx).

Definition buildDeleteStatement (argt : rtype) (clauses : string) : string :=
  let tableName := BuildTableName argt in
  Sprintf "delete from %s %s;" [FStr tableName; FStr clauses].

(** ** The facade *)

(** [Database.Insert]: the error and the argument as the call leaves it. *)
Definition Insert (db : Database) (arg : value)
    : outcome (option error * value) :=
  r <- getObjectType arg ;;
  match r with
  | Err err => Returns (Some (errWrap err "could not insert object"), arg)
  | Ok argt =>
      let errmsg :=
        Sprintf "could not insert object of type %s" [FStr (tName argt)] in
      statement <- buildInsertStatement argt ;;
      r <- buildStatementValues arg ;;
      match r with
      | Err err => Returns (Some (errWrap err "could not insert object"), arg)
      | Ok values =>
          match QueryRowScan db statement values with
          | Err err => Returns (Some (errWrap err errmsg), arg)
          | Ok lastID =>
              (* err is the error of the scan, nil from here on: the call
                 below does not assign it *)
              let err : option error := None in
              r <- setIDValue arg lastID ;;
              let arg := snd r in
              match err with
              | Some err => Returns (Some (errWrap err errmsg), arg)
              | None => Returns (None, arg)
              end
          end
      end
  end.

(** [Database.UpdateOne] *)
Definition UpdateOne (db : Database) (arg : value) : outcome (option error) :=
  r <- getObjectType arg ;;
  match r with
  | Err err => Returns (Some (errWrap err "could not update object"))
  | Ok argt =>
      let errmsg :=
        Sprintf "could not update object of type %s" [FStr (tName argt)] in
      r <- buildUpdateStatement argt "where id = $1" 2 ;;
      let statement := fst r in
      r <- buildStatementValues arg ;;
      match r with
      | Err err => Returns (Some (errWrap err "could not update object"))
      | Ok values =>
          r <- getIDValue arg ;;
          match r with
          | Err err => Returns (Some (errWrap err errmsg))
          | Ok id =>
              let values := VInt int64Type id :: values in
              let '(commandTag, err) := Exec db statement values in
              match err with
              | Some err =>
                  Returns (Some (errWrap err "could not update object"))
              | None =>
                  if negb (RowsAffected commandTag =? 1)%Z then
                    Returns (Some (errNew
                      "incorrect number of rows affected after updating the object"))
                  else Returns None
              end
          end
      end
  end.

(** The round trip of [UpdateOne]: the statement and the parameters it
    sends to [Exec], when it gets that far. *)
Definition updateOneRequest (arg : value)
    : outcome (result (string * list value)) :=
  r <- getObjectType arg ;;
  match r with
  | Err err => Returns (Err err)
  | Ok argt =>
      r <- buildUpdateStatement argt "where id = $1" 2 ;;
      v <- buildStatementValues arg ;;
      match v with
      | Err err => Returns (Err err)
      | Ok values =>
          i <- getIDValue arg ;;
          match i with
          | Err err => Returns (Err err)
          | Ok id => Returns (Ok (fst r, VInt int64Type id :: values))
          end
      end
  end.

(** ** Scanned rows *)

(** Assignability of a value of the first type to a variable of the second,
    as [reflect] decides it for [Value.Set]; it is not part of the program.
    A type is assignable to itself. *)
Variable assignable : rtype -> rtype -> bool.
Hypothesis assignable_refl : forall t : rtype, assignable t t = true.

(** What [v.Set(x)] stores in [v]; it panics when [v] cannot be set, when
    [x] is the zero Value or was reached through an unexported field, and
    when the type of [x] is not assignable to the type of [v]. *)
Definition Value_Set (v x : Value) : outcome value :=
  if negb (CanSet v) then
    Panics "reflect: reflect.Value.Set using unaddressable value"
  else
    match rv v, rv x with
    | Some old, Some new =>
        if readOnly x then
          Panics "reflect: reflect.Value.Set using value obtained using unexported field"
        else if assignable (TypeOf new) (TypeOf old) then
          Returns (withType (TypeOf old) new)
        else
          Panics ("reflect.Set: value of type " ++ tName (TypeOf new)
                  ++ " is not assignable to type " ++ tName (TypeOf old))
    | _, _ => Panics "reflect: call of reflect.Value.Set on zero Value"
    end.

(** [reflect.ValueOf(x).Elem()]: it panics unless [x] is a pointer. *)
Definition elemOf (x : value) : outcome Value :=
  if Kind_eqb (tKind (TypeOf x)) Pointer then Returns (Value_Elem (ValueOf x))
  else Panics ("reflect: call of reflect.Value.Elem on "
               ++ Kind_String (tKind (TypeOf x)) ++ " Value").

(** The loop of [setObjectFields], at index [i], with the fields and the
    values from [i] on; [vals] is what the fields of the struct hold, and
    the loop returns what they hold in the end. *)
Fixpoint setFieldsLoop (addr : bool) (t : rtype) (i : nat)
    (fields : list StructField) (values : list value) (vals : list value)
    : outcome (list value) :=
  match fields with
  | [] => Returns vals
  | _ :: fields' =>
      match values with
      | [] => Panics "runtime error: index out of range"
      | x :: values' =>
          new <- elemOf x ;;
          stored <- Value_Set
                      (Value_Field (mkValue (Some (VStruct t vals)) addr false) i)
                      new ;;
          setFieldsLoop addr t (i + 1) fields' values' (setNth vals i stored)
      end
  end.

(** setObjectFields sets the values for each field of the object passed as
    first argument.  It returns its error together with the argument as
    the call leaves it. *)
Definition setObjectFields (arg : value) (values : list value)
    : outcome (option error * value) :=
  match getObjectValue arg with
  | Err err => Returns (Some err, arg)
  | Ok argv =>
      match rv argv with
      | Some (VStruct t vals) =>
          if negb (List.length values =? List.length (tFields t))%nat then
            Returns (Some (errNew
              "mismatch between number of fields and number of values"), arg)
          else
            vals' <- setFieldsLoop (addressable argv) t 0 (tFields t)
                                   values vals ;;
            Returns (None, storeFields arg vals')
      | _ => Panics "reflect: call of reflect.Value.NumField on a Value that is no struct"
      end
  end.

(** [Database.CreateTable]: the error, and the statements sent to the
    connection, in the order they were sent. *)
Definition CreateTable (db : Database) (t : rtype) (dropExisting : bool)
    : outcome (option error * list string) :=
  let tableName := BuildTableName t in
  let errmsg := Sprintf "could not create table %s" [FStr tableName] in
  let create (sent : list string) : outcome (option error * list string) :=
    r <- buildCreateStatement t ;;
    match r with
    | Err err => Returns (Some (errWrap err errmsg), sent)
    | Ok statement =>
        match snd (Exec db statement []) with
        | Some err =>
            Returns (Some (errWrap err errmsg), (sent ++ [statement])%list)
        | None => Returns (None, (sent ++ [statement])%list)
        end
    end in
  if dropExisting then
    let statement :=
      Sprintf "drop table if exists %s cascade;" [FStr tableName] in
    match snd (Exec db statement []) with
    | Some err => Returns (Some (errWrap err errmsg), [statement])
    | None => create [statement]
    end
  else create [].

(** [Database.SelectOne]: the error and the argument as the call leaves
    it. *)
Definition SelectOne (q : Queries) (arg : value) (clauses : string)
    (args : list value) : outcome (option error * value) :=
  r <- getObjectType arg ;;
  match r with
  | Err err => Returns (Some (errWrap err "could not select object"), arg)
  | Ok argt =>
      let errmsg :=
        Sprintf "could not select object of type %s" [FStr (tName argt)] in
      statement <- buildSelectStatement argt clauses ;;
      let row := QueryRow q statement args in
      columnValues <- buildSliceFromFields argt ;;
      let '(columnValues, err) := row columnValues in
      match err with
      | Some err => Returns (Some (errWrap err errmsg), arg)
      | None =>
          r <- setObjectFields arg columnValues ;;
          match fst r with
          | Some err => Returns (Some (errWrap err errmsg), snd r)
          | None => Returns (None, snd r)
          end
      end
  end.

(** The loop of [Database.Select] over the rows that are left; [elems]
    holds the elements appended to the result so far. *)
Fixpoint selectRows (t : rtype) (errmsg : string) (rows : list scanner)
    (elems : list value) : outcome (result (list value)) :=
  match rows with
  | [] => Returns (Ok elems)
  | row :: rows' =>
      columnValues <- buildSliceFromFields t ;;
      let '(columnValues, err) := row columnValues in
      match err with
      | Some err => Returns (Err (errWrap err errmsg))
      | None =>
          let newelem := New t in
          r <- setObjectFields newelem columnValues ;;
          match fst r with
          | Some err => Returns (Err (errWrap err errmsg))
          | None =>
              match Value_Elem (ValueOf (snd r)) with
              | {| rv := Some elem |} =>
                  selectRows t errmsg rows' (elems ++ [elem])%list
              | _ => Panics "reflect: call of reflect.Append on zero Value"
              end
          end
      end
  end.

(** [Database.Select]: the elements of the slice it returns. *)
Definition Select (q : Queries) (t : rtype) (clauses : string)
    (args : list value) : outcome (result (list value)) :=
  let errmsg :=
    Sprintf "could not select objects of type %s" [FStr (tName t)] in
  statement <- buildSelectStatement t clauses ;;
  let '(rows, err) := Query q statement args in
  match err with
  | Some err => Returns (Err (errWrap err errmsg))
  | None => selectRows t errmsg rows []
  end.

(** [Database.Delete] *)
Definition Delete (db : Database) (t : rtype) (clauses : string)
    (args : list value) : Z * option error :=
  let errmsg :=
    Sprintf "could not delete objects of type %s" [FStr (tName t)] in
  let statement := buildDeleteStatement t clauses in
  let '(commandTag, err) := Exec db statement args in
  match err with
  | Some err => (0, Some (errWrap err errmsg))
  | None => (RowsAffected commandTag, None)
  end.

(** ** Vocabulary of the properties *)

(** No byte of [s] is one of [A]..[Z]. *)
Fixpoint noUpper (s : string) : bool :=
  match s with
  | EmptyString => true
  | String c rest => negb (isUpperASCII c) && noUpper rest
  end.

(** The types [mapColumnType] has a column type for, leaving the length
    tag of a string aside. *)
Definition supportedType (t : rtype) : bool :=
  match tKind t with
  | Int | Int64 | String_ => true
  | Struct => (tPkgPath t ++ "." ++ tName t) =? "time.Time"
  | Slice =>
      match tElem t with
      | Some e => Kind_eqb (tKind e) Uint8
      | None => false
      end
  | _ => false
  end.

(** What the error of an unsupported type says after "unsupported ". *)
Definition unsupportedWhat (t : rtype) : string :=
  match tKind t, tElem t with
  | Struct, _ => "struct type - " ++ tPkgPath t ++ "." ++ tName t
  | Slice, Some e => "slice kind - " ++ Kind_String (tKind e)
  | k, _ => "field kind - " ++ Kind_String k
  end.

(** The clause of a field in a create statement: the column name, a column
    type and the [pgsql] tag as it stands. *)
Definition columnClause (field : StructField) (columnType : string) : string :=
  ToLower (Name field) ++ " " ++ columnType ++ " " ++ Tag_Get (Tag field) "pgsql".

(** How [buildCreateStatement] types a field: a field called "ID" is
    [bigserial]; a field whose lower-cased name is not "id" has the type of
    [mapColumnType], which is not [bigserial]. *)
Definition typedColumn (field : StructField) (columnType : string) : Prop :=
  (Name field = "ID" -> columnType = idColumnType) /\
  (ToLower (Name field) <> "id" ->
     mapColumnType field = Returns (Ok columnType) /\
     columnType <> idColumnType).

(** The fields that are not called "ID", in declaration order. *)
Definition nonID (fields : list StructField) : list StructField :=
  filter (fun field => negb (Name field =? "ID")) fields.

(** The last declared field is called "ID". *)
Fixpoint endsWithID (fields : list StructField) : bool :=
  match fields with
  | [] => false
  | [field] => Name field =? "ID"
  | _ :: rest => endsWithID rest
  end.

(** The placeholders [$k], [$k+1], ..., [n] of them. *)
Fixpoint placeholders (k : Z) (n : nat) : list string :=
  match n with
  | O => []
  | S m => ("$" ++ itoa k) :: placeholders (k + 1) m
  end.

(** The assignments [name = $k], [name' = $k+1], ... *)
Fixpoint assignments (k : Z) (names : list string) : list string :=
  match names with
  | [] => []
  | name :: rest => (name ++ " = $" ++ itoa k) :: assignments (k + 1) rest
  end.

(** A list printed with commas between its items, and one more comma
    after the last item when [trailing]. *)
Definition commaList (trailing : bool) (items : list string) : string :=
  String.concat "," items ++ (if trailing then "," else "").

(** The last field is "ID" and some field is not: the case in which the
    loops leave a comma after the last item. *)
Definition trailingComma (fields : list StructField) : bool :=
  endsWithID fields && negb (Nat.eqb (List.length (nonID fields)) 0).

(** The column names of an insert statement. *)
Definition insertColumns (fields : list StructField) : list string :=
  map (fun field => ToLower (Name field)) (nonID fields).

(** The names the update statement assigns to: the field names as they are
    declared. *)
Definition updateNames (fields : list StructField) : list string :=
  map Name (nonID fields).

(** The values of the fields that are not called "ID", in declaration
    order. *)
Fixpoint nonIDValues (fields : list StructField) (vals : list value)
    : list value :=
  match fields, vals with
  | field :: fields', x :: vals' =>
      if Name field =? "ID" then nonIDValues fields' vals'
      else x :: nonIDValues fields' vals'
  | _, _ => []
  end.

(** [recordArg t vals arg addr]: the argument is the struct [VStruct t vals],
    passed by value ([addr = false]) or behind a pointer ([addr = true]). *)
Inductive recordArg (t : rtype) (vals : list value) : value -> bool -> Prop :=
| byValue : recordArg t vals (VStruct t vals) false
| byPointer (pt : rtype) :
    tKind pt = Pointer -> tElem pt = Some t ->
    recordArg t vals (VPointer pt (Some (VStruct t vals))) true.

(** A field that [buildStatementValues] can read: it is skipped as "ID" or
    it is exported. *)
Definition readable (field : StructField) : Prop :=
  (Name field =? "ID") = true \/ PkgPath field = "".

(** A value that is a pointer, not nil, to [x]. *)
Definition pointsTo (v x : value) : Prop :=
  exists pt, v = VPointer pt (Some x) /\ tKind pt = Pointer.

(** A scan that stores [row], of the types of the fields, in fresh slots. *)
Definition scansRow (t : rtype) (scan : scanner) (row : list value) : Prop :=
  scan (map (fun field => New (FType field)) (tFields t))
  = (slotsHolding (tFields t) row, None) /\
  Forall2 (fun field x => TypeOf x = FType field) (tFields t) row.

(** * Properties *)

(** ** Strings and formats *)

Lemma append_nil_r (s : string) : s ++ "" = s.
Proof. induction s as [|c s IH]; simpl; [reflexivity | now rewrite IH]. Qed.

Lemma append_assoc (a b c : string) : (a ++ b) ++ c = a ++ b ++ c.
Proof. induction a as [|x a IH]; simpl; [reflexivity | now rewrite IH]. Qed.

(** The formats of the program, each as the concatenation it prints. *)
Lemma Sprintf_tableName (s : string) : Sprintf "%ss" [FStr s] = s ++ "s".
Proof. reflexivity. Qed.

Lemma Sprintf_create (s : string) :
  Sprintf "create table %s (" [FStr s] = "create table " ++ s ++ " (".
Proof. reflexivity. Qed.

Lemma Sprintf_column (a b c : string) :
  Sprintf "%s %s %s" [FStr a; FStr b; FStr c] = a ++ " " ++ b ++ " " ++ c.
Proof. cbn. now rewrite append_nil_r. Qed.

Lemma Sprintf_placeholder (n : Z) : Sprintf "$%d" [FInt n] = "$" ++ itoa n.
Proof. cbn. now rewrite append_nil_r. Qed.

Lemma Sprintf_assignment (s : string) (n : Z) :
  Sprintf "%s = $%d" [FStr s; FInt n] = s ++ " = $" ++ itoa n.
Proof. cbn. now rewrite append_nil_r. Qed.

Lemma Sprintf_insert (t c v : string) :
  Sprintf "insert into %s (%s) values (%s) returning id;"
          [FStr t; FStr c; FStr v]
  = "insert into " ++ t ++ " (" ++ c ++ ") values (" ++ v ++ ") returning id;".
Proof. reflexivity. Qed.

Lemma Sprintf_update (t s c : string) :
  Sprintf "update %s set %s %s;" [FStr t; FStr s; FStr c]
  = "update " ++ t ++ " set " ++ s ++ " " ++ c ++ ";".
Proof. reflexivity. Qed.

Lemma Sprintf_varchar (n : Z) :
  Sprintf "varchar(%d)" [FInt n] = "varchar(" ++ itoa n ++ ")".
Proof. reflexivity. Qed.

Lemma Sprintf_qualified (a b : string) :
  Sprintf "%s.%s" [FStr a; FStr b] = a ++ "." ++ b.
Proof. cbn. now rewrite append_nil_r. Qed.

Lemma Sprintf_unsupported_struct (s : string) :
  Sprintf "unsupported struct type - %s" [FStr s]
  = "unsupported struct type - " ++ s.
Proof. cbn. now rewrite append_nil_r. Qed.

Lemma Sprintf_unsupported_slice (s : string) :
  Sprintf "unsupported slice kind - %s" [FStr s]
  = "unsupported slice kind - " ++ s.
Proof. cbn. now rewrite append_nil_r. Qed.

Lemma Sprintf_unsupported_kind (s : string) :
  Sprintf "unsupported field kind - %s" [FStr s]
  = "unsupported field kind - " ++ s.
Proof. cbn. now rewrite append_nil_r. Qed.

(** ** Table names *)

Lemma lowerByte_not_upper (c : ascii) :
  isASCIIByte c = true -> isUpperASCII (lowerByte c) = false.
Proof.
  destruct c as [[] [] [] [] [] [] [] []]; intros H; try discriminate H;
    reflexivity.
Qed.

Lemma noUpper_app (a b : string) :
  noUpper (a ++ b) = noUpper a && noUpper b.
Proof.
  induction a as [|c a IH]; simpl; [reflexivity | ].
  now rewrite IH, andb_assoc.
Qed.

Lemma mapBytes_lower_noUpper (s : string) :
  isASCII s = true -> noUpper (mapBytes lowerByte s) = true.
Proof.
  induction s as [|c s IH]; simpl; [reflexivity | ].
  intros H. apply andb_true_iff in H as [Hc Hs].
  now rewrite (lowerByte_not_upper c Hc), IH.
Qed.

Lemma mapBytes_length (f : ascii -> ascii) (s : string) :
  String.length (mapBytes f s) = String.length s.
Proof. induction s as [|c s IH]; simpl; [reflexivity | now rewrite IH]. Qed.

(** C8: the table name of a type is the lower-casing of its bare name
    followed by one "s"; it depends on nothing but the bare name, so two
    derivations from one name agree; on an ASCII name no capital letter is
    left and the table name is one byte longer than the name. *)
Theorem BuildTableName_lower_plural :
  forall t : rtype,
    BuildTableName t = ToLower (tName t) ++ "s" /\
    (forall pkg kind elem fields,
        BuildTableName (mkType (tName t) pkg kind elem fields)
        = BuildTableName t) /\
    (isASCII (tName t) = true ->
       noUpper (BuildTableName t) = true /\
       String.length (BuildTableName t) = S (String.length (tName t))).
Proof.
  intros t. unfold BuildTableName. rewrite Sprintf_tableName.
  split; [reflexivity | split].
  - intros pkg kind elem fields. reflexivity.
  - intros Hascii. unfold ToLower. rewrite Hascii. split.
    + rewrite noUpper_app, mapBytes_lower_noUpper by assumption. reflexivity.
    + clear Hascii. induction (tName t) as [|c s IH]; simpl;
        [reflexivity | now rewrite IH].
Qed.

(** ** Column types *)

Lemma mapColumnType_not_idColumnType (field : StructField) (ty : string) :
  mapColumnType field = Returns (Ok ty) -> ty <> idColumnType.
Proof.
  unfold mapColumnType, idColumnType.
  destruct (tKind (FType field)); try discriminate;
    try (intros [= <-]; discriminate).
  - destruct (Elem (FType field)) as [e|]; simpl; [ | discriminate].
    destruct (tKind e); try discriminate. intros [= <-]; discriminate.
  - destruct (getLengthTag field); [ | discriminate].
    rewrite Sprintf_varchar. intros [= <-]. discriminate.
  - destruct (_ =? _); [ | discriminate]. intros [= <-]; discriminate.
Qed.

(** [strconv.Atoi] reads back what [%d] prints. *)
Lemma parseDigits_acc (d : Decimal.uint) :
  forall p : positive,
    parseDigits (NilEmpty.string_of_uint d) (Z.pos p)
    = Some (Z.pos (Pos.of_uint_acc d p)).
Proof.
  induction d; intros p; cbn [NilEmpty.string_of_uint Pos.of_uint_acc];
    [reflexivity | ..];
    (cbn [parseDigits]; 
     match goal with |- (if ?b then _ else _) = _ => change b with true end;
     cbv iota; rewrite <- IHd; f_equal;
     match goal with |- _ = Z.pos ?r => remember r as q eqn:Hq end; cbn;
     subst q; lia).
Qed.

Lemma parseDigits_zero (d : Decimal.uint) :
  parseDigits (NilEmpty.string_of_uint d) 0 = Some (Z.of_N (Pos.of_uint d)).
Proof.
  induction d; cbn [NilEmpty.string_of_uint Pos.of_uint];
    [reflexivity | exact IHd | ..];
    (cbn [parseDigits];
     match goal with |- (if ?b then _ else _) = _ => change b with true end;
     cbv iota; cbn [Z.of_N]; rewrite <- parseDigits_acc; f_equal).
Qed.

Lemma string_of_uint_digits (d : Decimal.uint) :
  d <> Decimal.Nil ->
  exists c rest,
    NilZero.string_of_uint d = String c rest /\
    NilEmpty.string_of_uint d = String c rest /\
    Ascii.eqb c "-" = false /\ Ascii.eqb c "+" = false.
Proof.
  destruct d; [congruence | ..]; intros _; eexists; eexists;
    repeat split; reflexivity.
Qed.

Lemma Atoi_itoa (n : Z) : minInt <= n <= maxInt -> Atoi (itoa n) = Ok n.
Proof.
  intros Hrange.
  assert (Hcheck : forall v, minInt <= v <= maxInt ->
            ((minInt <=? v) && (v <=? maxInt))%Z = true).
  { intros v Hv. apply andb_true_iff. split; apply Z.leb_le; lia. }
  destruct n as [|p|p]; unfold itoa, Atoi; cbn [Z.to_int NilZero.string_of_int].
  - reflexivity.
  - destruct (string_of_uint_digits (Pos.to_uint p) (Unsigned.to_uint_nonnil p))
      as (c & rest & -> & Hs & Hminus & Hplus).
    rewrite Hminus, Hplus, <- Hs, parseDigits_zero, Unsigned.of_to.
    cbn [Z.of_N]. now rewrite Hcheck.
  - rewrite Ascii.eqb_refl.
    destruct (string_of_uint_digits (Pos.to_uint p) (Unsigned.to_uint_nonnil p))
      as (c & rest & -> & Hs & _).
    rewrite <- Hs, parseDigits_zero, Unsigned.of_to.
    cbn [Z.of_N Z.opp]. now rewrite Hcheck.
Qed.

(** C4: a string field gets [varchar(N)], N the integer its length tag
    parses to, of either sign or zero: every decimal integer that fits
    [int] is accepted.  Without the tag, or with an empty one, derivation
    fails with the missing-tag error, and with a tag that [strconv.Atoi]
    rejects it fails with the invalid-tag error. *)
Theorem mapColumnType_string :
  forall field : StructField,
    tKind (FType field) = String_ ->
    (Tag_Get (Tag field) "pglen" = "" ->
       mapColumnType field
       = Returns (Err (errNew ("len tag not present for field " ++ Name field))))
    /\ (Tag_Get (Tag field) "pglen" <> "" ->
        forall e, Atoi (Tag_Get (Tag field) "pglen") = Err e ->
        mapColumnType field
        = Returns (Err (errNew ("len tag of field " ++ Name field
                                ++ " cannot be converted to int"))))
    /\ (forall n, Atoi (Tag_Get (Tag field) "pglen") = Ok n ->
        mapColumnType field = Returns (Ok ("varchar(" ++ itoa n ++ ")")))
    /\ (forall n, minInt <= n <= maxInt ->
        Tag_Get (Tag field) "pglen" = itoa n ->
        mapColumnType field = Returns (Ok ("varchar(" ++ itoa n ++ ")"))).
Proof.
  intros field Hkind. set (stag := Tag_Get (Tag field) "pglen").
  assert (Hok : forall n, Atoi stag = Ok n ->
    mapColumnType field = Returns (Ok ("varchar(" ++ itoa n ++ ")"))).
  { intros n Hn. unfold mapColumnType, getLengthTag. rewrite Hkind.
    fold stag. destruct (stag =? "") eqn:Hempty.
    - apply String.eqb_eq in Hempty. rewrite Hempty in Hn. discriminate Hn.
    - rewrite Hn. reflexivity. }
  repeat split.
  - unfold mapColumnType, getLengthTag. rewrite Hkind. fold stag.
    intros ->. simpl. now rewrite append_nil_r.
  - unfold mapColumnType, getLengthTag. rewrite Hkind. fold stag.
    intros Hne e He. apply String.eqb_neq in Hne. rewrite Hne, He.
    reflexivity.
  - exact Hok.
  - intros n Hrange Htag. apply Hok. rewrite Htag. now apply Atoi_itoa.
Qed.

(** C5: a field of an unsupported type fails with an error that names the
    type (the qualified name of a struct, the element kind of a slice, the
    kind of anything else) and that is the same for every field of that
    type: it does not name the field. *)
Theorem mapColumnType_unsupported :
  forall field : StructField,
    supportedType (FType field) = false ->
    (tKind (FType field) = Slice -> tElem (FType field) <> None) ->
    mapColumnType field
    = Returns (Err (errNew ("unsupported " ++ unsupportedWhat (FType field))))
    /\ forall name pkg tag,
        mapColumnType (mkField name pkg (FType field) tag)
        = mapColumnType field.
Proof.
  intros field Hsup Hwf.
  assert (H : forall f, FType f = FType field ->
    mapColumnType f
    = Returns (Err (errNew ("unsupported " ++ unsupportedWhat (FType field))))).
  { intros f Hf. unfold mapColumnType, supportedType, unsupportedWhat, Elem in *.
    rewrite Hf, Sprintf_qualified.
    destruct (tKind (FType field)) eqn:Hk; try discriminate Hsup;
      try (rewrite Sprintf_unsupported_kind; reflexivity).
    - destruct (tElem (FType field)) as [e|]; [ | now destruct Hwf].
      cbn [bind]. unfold Kind_eqb in Hsup.
      destruct (tKind e); try (rewrite Sprintf_unsupported_slice; reflexivity).
      destruct (Kind_eq_dec Uint8 Uint8); [discriminate | congruence].
    - rewrite Hsup, Sprintf_unsupported_struct. reflexivity. }
  split; [now apply H | ].
  intros name pkg tag. rewrite (H field eq_refl). now apply H.
Qed.

(** ** The create statement *)

Lemma ToLower_ID (s : string) : s = "ID" -> ToLower s = "id".
Proof. intros ->. reflexivity. Qed.

Lemma concat_cons (sep x : string) (xs : list string) :
  xs <> [] -> String.concat sep (x :: xs) = x ++ sep ++ String.concat sep xs.
Proof. destruct xs; [congruence | reflexivity]. Qed.

Lemma ltb_last (i : nat) : (i + 1 <? i + 1)%nat = false.
Proof. apply Nat.ltb_irrefl. Qed.

Lemma ltb_more (i k : nat) : (i + 1 <? i + S (S k))%nat = true.
Proof. apply Nat.ltb_lt. lia. Qed.

Lemma createLoop_clauses :
  forall fields n i sqlStatement statement,
    n = (i + List.length fields)%nat ->
    createLoop n i fields sqlStatement = Returns (Ok statement) ->
    exists types,
      Forall2 typedColumn fields types /\
      statement
      = sqlStatement ++
        String.concat "," (map (fun p => columnClause (fst p) (snd p))
                               (combine fields types)).
Proof.
  induction fields as [|field rest IH]; intros n i acc statement Hn Hloop.
  - injection Hloop as <-. exists []. split; [constructor | ].
    simpl. now rewrite append_nil_r.
  - cbn [createLoop] in Hloop.
    assert (Htyped : exists ty,
      (if ToLower (Name field) =? "id" then Returns (Ok idColumnType)
       else mapColumnType field) = Returns (Ok ty) /\ typedColumn field ty).
    { destruct (ToLower (Name field) =? "id") eqn:Hid.
      - exists idColumnType. split; [reflexivity | ]. split; [reflexivity | ].
        apply String.eqb_eq in Hid. congruence.
      - destruct (mapColumnType field) as [[ty|e]|msg] eqn:Hmap;
          try discriminate Hloop.
        exists ty. split; [reflexivity | ]. split.
        + intros HID. apply ToLower_ID in HID.
          apply String.eqb_neq in Hid. contradiction.
        + intros _. split; [exact Hmap | ].
          now apply (mapColumnType_not_idColumnType field). }
    destruct Htyped as (ty & Hty & Htyped). rewrite Hty in Hloop.
    cbn [bind] in Hloop. rewrite Sprintf_column in Hloop.
    fold (columnClause field ty) in Hloop.
    destruct rest as [|field' rest'].
    + cbn [List.length] in Hn. subst n. rewrite ltb_last in Hloop.
      injection Hloop as <-. exists [ty]. split.
      * constructor; [assumption | constructor].
      * reflexivity.
    + cbn [List.length] in Hn. subst n. rewrite ltb_more in Hloop.
      apply IH in Hloop; [ | cbn [List.length]; lia].
      destruct Hloop as (types & Hall & ->).
      exists (ty :: types). split; [now constructor | ].
      cbn [combine map fst snd]. rewrite concat_cons.
      * now rewrite !append_assoc.
      * inversion Hall; subst. discriminate.
Qed.

Lemma createLoop_returns :
  forall fields n i sqlStatement,
    Forall (fun field => ToLower (Name field) = "id" \/
                         exists ty, mapColumnType field = Returns (Ok ty))
           fields ->
    exists statement,
      createLoop n i fields sqlStatement = Returns (Ok statement).
Proof.
  induction fields as [|field rest IH]; intros n i acc Hall.
  - now exists acc.
  - inversion Hall as [|? ? Hfield Hrest]; subst. cbn [createLoop].
    destruct Hfield as [Hid | [ty Hty]].
    + apply String.eqb_eq in Hid. rewrite Hid. cbn [bind]. now apply IH.
    + destruct (ToLower (Name field) =? "id"); [ | rewrite Hty];
        cbn [bind]; now apply IH.
Qed.

(** C1: the create statement of a struct type is built whenever every
    field either lower-cases to "id" or has a column type, and then every
    field has one clause, made of its lower-cased name, a column type and
    its [pgsql] tag, the clauses being separated by commas.  A field called
    exactly "ID" has the type [bigserial] whatever its declared type and
    tags, and its constraint is its [pgsql] tag, nothing more; a field
    whose lower-cased name is not "id" has the type [mapColumnType] gives
    it, never [bigserial]. *)
Theorem buildCreateStatement_identity_column :
  forall argt : rtype,
    tKind argt = Struct ->
    (Forall (fun field => ToLower (Name field) = "id" \/
                          exists ty, mapColumnType field = Returns (Ok ty))
            (tFields argt) ->
     exists statement, buildCreateStatement argt = Returns (Ok statement))
    /\
    (forall statement : string,
       buildCreateStatement argt = Returns (Ok statement) ->
       exists types : list string,
         Forall2 typedColumn (tFields argt) types /\
         statement
         = "create table " ++ BuildTableName argt ++ " (" ++
           String.concat "," (map (fun p => columnClause (fst p) (snd p))
                                  (combine (tFields argt) types)) ++ ");").
Proof.
  intros argt Hkind. unfold buildCreateStatement, NumField. rewrite Hkind.
  cbn [bind]. split.
  - intros Hall.
    destruct (createLoop_returns (tFields argt) (List.length (tFields argt)) 0
                (Sprintf "create table %s (" [FStr (BuildTableName argt)]) Hall)
      as [body ->].
    cbn [bind]. eauto.
  - intros statement.
    destruct (createLoop _ 0 (tFields argt) _) as [[body|e]|msg] eqn:Hloop;
      try discriminate.
    intros [= <-]. apply createLoop_clauses in Hloop; [ | reflexivity].
    destruct Hloop as (types & Hall & ->). exists types.
    split; [assumption | ].
    rewrite Sprintf_create. now rewrite !append_assoc.
Qed.

(** ** The insert and update statements *)

Lemma wrapInt_small (z : Z) : minInt <= z <= maxInt -> wrapInt z = z.
Proof.
  unfold minInt, maxInt, wrapInt. intros H.
  rewrite Z.mod_small by lia. lia.
Qed.

Lemma endsWithID_all (fields : list StructField) :
  fields <> [] -> nonID fields = [] -> endsWithID fields = true.
Proof.
  induction fields as [|field rest IH]; [congruence | ].
  intros _. unfold nonID. cbn [filter].
  destruct (Name field =? "ID") eqn:Hid; [ | discriminate].
  cbn [negb]. intros Hrest. destruct rest as [|field' rest'].
  - exact Hid.
  - change (endsWithID (field :: field' :: rest'))
      with (endsWithID (field' :: rest')).
    apply IH; [discriminate | exact Hrest].
Qed.

Lemma endsWithID_cons (field field' : StructField) (rest : list StructField) :
  endsWithID (field :: field' :: rest) = endsWithID (field' :: rest).
Proof. reflexivity. Qed.

(** One turn of a loop that prints [item] and a comma, more fields
    following. *)
Lemma commaList_step (acc item : string) (tRest tAll : bool)
    (items : list string) :
  (items = [] -> tRest = false /\ tAll = true) ->
  (items <> [] -> tAll = tRest) ->
  ((acc ++ item) ++ ",") ++ commaList tRest items
  = acc ++ commaList tAll (item :: items).
Proof.
  intros Hnil Hcons. unfold commaList. destruct items as [|item' items'].
  - destruct Hnil as [-> ->]; [reflexivity | ].
    simpl. now rewrite !append_assoc, append_nil_r.
  - rewrite (Hcons ltac:(discriminate)).
    rewrite (concat_cons "," item (item' :: items')) by discriminate.
    now rewrite !append_assoc.
Qed.

(** The trailing flags of a list of fields and of the fields after a first
    one that is not "ID", as [commaList_step] wants them. *)
Lemma trailingComma_step (field field' : StructField)
    (rest : list StructField) :
  (Name field =? "ID") = false ->
  (nonID (field' :: rest) = [] ->
     trailingComma (field' :: rest) = false /\
     trailingComma (field :: field' :: rest) = true) /\
  (nonID (field' :: rest) <> [] ->
     trailingComma (field :: field' :: rest) = trailingComma (field' :: rest)).
Proof.
  intros Hid. unfold trailingComma. rewrite endsWithID_cons.
  assert (Hn : nonID (field :: field' :: rest) = field :: nonID (field' :: rest)).
  { unfold nonID. cbn [filter]. now rewrite Hid. }
  rewrite Hn. split.
  - intros Hnil. rewrite Hnil.
    rewrite (endsWithID_all (field' :: rest)) by (discriminate || assumption).
    split; reflexivity.
  - intros Hne. destruct (nonID (field' :: rest)); [congruence | reflexivity].
Qed.

Lemma trailingComma_skip (field : StructField) (rest : list StructField) :
  (Name field =? "ID") = true ->
  nonID (field :: rest) = nonID rest /\
  (rest <> [] -> trailingComma (field :: rest) = trailingComma rest) /\
  (rest = [] -> trailingComma (field :: rest) = false).
Proof.
  intros Hid.
  assert (Hn : nonID (field :: rest) = nonID rest).
  { unfold nonID. cbn [filter]. now rewrite Hid. }
  split; [exact Hn | split].
  - intros Hne. unfold trailingComma. rewrite Hn.
    destruct rest; [congruence | reflexivity].
  - intros ->. unfold trailingComma. rewrite Hn. simpl. apply andb_false_r.
Qed.

Lemma trailingComma_single (field : StructField) :
  (Name field =? "ID") = false -> trailingComma [field] = false.
Proof. intros Hid. unfold trailingComma. cbn [endsWithID]. now rewrite Hid. Qed.

Lemma insertLoop_spec :
  forall fields n i columnNames valueIndices nextIdx,
    n = (i + List.length fields)%nat ->
    minInt <= nextIdx ->
    nextIdx + Z.of_nat (List.length (nonID fields)) <= maxInt ->
    insertLoop n i fields (columnNames, valueIndices, nextIdx)
    = (columnNames ++ commaList (trailingComma fields) (insertColumns fields),
       valueIndices ++
       commaList (trailingComma fields)
                 (placeholders nextIdx (List.length (nonID fields))),
       nextIdx + Z.of_nat (List.length (nonID fields))).
Proof.
  induction fields as [|field rest IH]; intros n i c v k Hn Hlo Hhi.
  - cbn. now rewrite !append_nil_r, Z.add_0_r.
  - cbn [insertLoop]. destruct (Name field =? "ID") eqn:Hid.
    + destruct (trailingComma_skip field rest Hid) as (Hnon & Hmore & Hlast).
      unfold insertColumns in *. rewrite Hnon in *.
      rewrite IH by (cbn [List.length] in Hn; lia || assumption).
      destruct rest as [|field' rest'].
      * rewrite Hlast by reflexivity. reflexivity.
      * rewrite Hmore by discriminate. reflexivity.
    + assert (Hnon : nonID (field :: rest) = field :: nonID rest).
      { unfold nonID. cbn [filter]. now rewrite Hid. }
      unfold insertColumns in *. rewrite Hnon in *.
      cbn [List.length map placeholders] in *.
      rewrite Sprintf_placeholder, wrapInt_small by lia.
      destruct rest as [|field' rest'].
      * subst n. rewrite ltb_last. unfold commaList.
        rewrite (trailingComma_single field Hid). cbn.
        now rewrite !append_nil_r.
      * subst n. cbn [List.length]. rewrite ltb_more.
        rewrite IH by (cbn [List.length]; lia).
        destruct (trailingComma_step field field' rest' Hid) as [Hnil Hcons].
        f_equal; [f_equal | lia].
        -- apply commaList_step.
           ++ intros H. apply Hnil. now apply map_eq_nil in H.
           ++ intros H. apply Hcons. intros H'. apply H. now rewrite H'.
        -- apply commaList_step.
           ++ intros H. apply Hnil.
              destruct (nonID (field' :: rest')); [reflexivity | discriminate].
           ++ intros H. apply Hcons. intros H'. apply H. now rewrite H'.
Qed.

Lemma updateLoop_spec :
  forall fields n i set nextIdx,
    n = (i + List.length fields)%nat ->
    minInt <= nextIdx ->
    nextIdx + Z.of_nat (List.length (nonID fields)) <= maxInt ->
    updateLoop n i fields (set, nextIdx)
    = (set ++ commaList (trailingComma fields)
                        (assignments nextIdx (updateNames fields)),
       nextIdx + Z.of_nat (List.length (nonID fields))).
Proof.
  induction fields as [|field rest IH]; intros n i c k Hn Hlo Hhi.
  - cbn. now rewrite !append_nil_r, Z.add_0_r.
  - cbn [updateLoop]. destruct (Name field =? "ID") eqn:Hid.
    + destruct (trailingComma_skip field rest Hid) as (Hnon & Hmore & Hlast).
      unfold updateNames in *. rewrite Hnon in *.
      rewrite IH by (cbn [List.length] in Hn; lia || assumption).
      destruct rest as [|field' rest'].
      * rewrite Hlast by reflexivity. reflexivity.
      * rewrite Hmore by discriminate. reflexivity.
    + assert (Hnon : nonID (field :: rest) = field :: nonID rest).
      { unfold nonID. cbn [filter]. now rewrite Hid. }
      unfold updateNames in *. rewrite Hnon in *.
      cbn [List.length map assignments] in *.
      rewrite Sprintf_assignment, wrapInt_small by lia.
      destruct rest as [|field' rest'].
      * subst n. rewrite ltb_last. unfold commaList.
        rewrite (trailingComma_single field Hid). cbn.
        now rewrite !append_nil_r.
      * subst n. cbn [List.length]. rewrite ltb_more.
        rewrite IH by (cbn [List.length]; lia).
        destruct (trailingComma_step field field' rest' Hid) as [Hnil Hcons].
        f_equal; [ | lia].
        apply commaList_step.
        -- intros H. apply Hnil.
           destruct (nonID (field' :: rest')); [reflexivity | discriminate].
        -- intros H. apply Hcons. intros H'. apply H. now rewrite H'.
Qed.

(** The insert statement of a struct type, commas as the loop leaves
    them. *)
Lemma buildInsertStatement_spec (argt : rtype) :
  tKind argt = Struct ->
  1 + Z.of_nat (List.length (nonID (tFields argt))) <= maxInt ->
  buildInsertStatement argt
  = Returns ("insert into " ++ BuildTableName argt ++ " (" ++
             commaList (trailingComma (tFields argt))
                       (insertColumns (tFields argt)) ++
             ") values (" ++
             commaList (trailingComma (tFields argt))
                       (placeholders 1 (List.length (nonID (tFields argt)))) ++
             ") returning id;").
Proof.
  intros Hkind Hfit. unfold buildInsertStatement, NumField. rewrite Hkind.
  cbn [bind]. rewrite insertLoop_spec; [ | reflexivity | easy | exact Hfit].
  now rewrite Sprintf_insert.
Qed.

(** The update statement of a struct type and the next free index. *)
Lemma buildUpdateStatement_spec (argt : rtype) (clauses : string) (k : Z) :
  tKind argt = Struct ->
  minInt <= k ->
  k + Z.of_nat (List.length (nonID (tFields argt))) <= maxInt ->
  buildUpdateStatement argt clauses k
  = Returns ("update " ++ BuildTableName argt ++ " set " ++
             commaList (trailingComma (tFields argt))
                       (assignments k (updateNames (tFields argt))) ++
             " " ++ clauses ++ ";",
             k + Z.of_nat (List.length (nonID (tFields argt)))).
Proof.
  intros Hkind Hlo Hhi. unfold buildUpdateStatement, NumField. rewrite Hkind.
  cbn [bind]. rewrite updateLoop_spec; [ | reflexivity | exact Hlo | exact Hhi].
  now rewrite Sprintf_update.
Qed.

Lemma trailingComma_true (fields : list StructField) :
  endsWithID fields = true -> nonID fields <> [] ->
  trailingComma fields = true.
Proof.
  intros Hlast Hsome. unfold trailingComma. rewrite Hlast.
  destruct (nonID fields); [congruence | reflexivity].
Qed.

Lemma trailingComma_false (fields : list StructField) :
  endsWithID fields = false -> trailingComma fields = false.
Proof. intros Hlast. unfold trailingComma. now rewrite Hlast. Qed.

(** C9: for a struct type whose last declared field is "ID" and that
    declares some other field, the insert statement has a comma after the
    last column name and after the last placeholder, and the update
    statement has a comma after the last assignment; when the last declared
    field is not "ID", the items are separated by commas and none follows
    the last. *)
Theorem trailing_comma_when_ID_is_last :
  forall (argt : rtype) (clauses : string) (k : Z),
    tKind argt = Struct ->
    1 <= k ->
    k + Z.of_nat (List.length (nonID (tFields argt))) <= maxInt ->
    (endsWithID (tFields argt) = true -> nonID (tFields argt) <> [] ->
       buildInsertStatement argt
       = Returns ("insert into " ++ BuildTableName argt ++ " (" ++
                  (String.concat "," (insertColumns (tFields argt)) ++ ",") ++
                  ") values (" ++
                  (String.concat ","
                     (placeholders 1 (List.length (nonID (tFields argt))))
                   ++ ",") ++
                  ") returning id;")
       /\ buildUpdateStatement argt clauses k
          = Returns ("update " ++ BuildTableName argt ++ " set " ++
                     (String.concat ","
                        (assignments k (updateNames (tFields argt))) ++ ",") ++
                     " " ++ clauses ++ ";",
                     k + Z.of_nat (List.length (nonID (tFields argt)))))
    /\
    (endsWithID (tFields argt) = false ->
       buildInsertStatement argt
       = Returns ("insert into " ++ BuildTableName argt ++ " (" ++
                  String.concat "," (insertColumns (tFields argt)) ++
                  ") values (" ++
                  String.concat ","
                    (placeholders 1 (List.length (nonID (tFields argt)))) ++
                  ") returning id;")
       /\ buildUpdateStatement argt clauses k
          = Returns ("update " ++ BuildTableName argt ++ " set " ++
                     String.concat ","
                       (assignments k (updateNames (tFields argt))) ++
                     " " ++ clauses ++ ";",
                     k + Z.of_nat (List.length (nonID (tFields argt))))).
Proof.
  intros argt clauses k Hkind Hk Hfit.
  assert (Hmin : minInt <= k) by (unfold minInt; lia).
  rewrite (buildInsertStatement_spec argt Hkind) by lia.
  rewrite (buildUpdateStatement_spec argt clauses k Hkind Hmin Hfit).
  unfold commaList. split.
  - intros Hlast Hsome.
    rewrite (trailingComma_true (tFields argt) Hlast Hsome).
    split; reflexivity.
  - intros Hlast. rewrite (trailingComma_false (tFields argt) Hlast).
    now rewrite !append_nil_r.
Qed.

(** The select statement of the record of the test file: its column names
    are lower-cased, as those of the create and insert statements are. *)
Lemma buildSelectStatement_TestItem :
  buildSelectStatement TestItemType "where id = $1"
  = Returns ("select id,stringcolumn,intcolumn,timecolumn,blobcolumn "
             ++ "from testitems where id = $1;").
Proof. reflexivity. Qed.

(** C6, at a record whose identity is declared last: the insert statement
    has a comma after the only column and after the only placeholder. *)
Theorem buildInsertStatement_trailing_ID :
  buildInsertStatement TrailingIDType
  = Returns "insert into notes (title,) values ($1,) returning id;".
Proof. reflexivity. Qed.

(** C3, at the record of the test file: the SET list assigns to the field
    names as declared, capitals included, not to the lower-cased column
    names. *)
Theorem buildUpdateStatement_declared_names :
  buildUpdateStatement TestItemType "where id = $1" 2
  = Returns ("update testitems set StringColumn = $2,IntColumn = $3,"
             ++ "TimeColumn = $4,BLOBColumn = $5 where id = $1;", 6)
  /\ buildUpdateStatement TestItemType "where id = $1" 2
     <> Returns ("update testitems set stringcolumn = $2,intcolumn = $3,"
                 ++ "timecolumn = $4,blobcolumn = $5 where id = $1;", 6).
Proof. split; [reflexivity | discriminate]. Qed.

(** ** The identity field *)

(** C10: when the argument is a struct, or points to one, whose "ID" field
    exists and can be set but is not of a signed integer kind, setting the
    identity panics: the call returns nothing, an error no more than a
    success. *)
Theorem setIDValue_panics_on_other_kinds :
  forall (arg : value) (x : Z) (argv : Value),
    getObjectValue arg = Ok argv ->
    IsValid (FieldByName argv "ID") = true ->
    CanSet (FieldByName argv "ID") = true ->
    intBits (Value_Kind (FieldByName argv "ID")) = None ->
    (exists msg, setIDValue arg x = Panics msg) /\
    (forall r, setIDValue arg x <> Returns r).
Proof.
  intros arg x argv Hobj Hvalid Hset Hkind.
  assert (H : exists msg, setIDValue arg x = Panics msg).
  { unfold setIDValue. rewrite Hobj, Hvalid, Hset. cbn [negb orb].
    unfold SetInt. rewrite Hkind. cbn [bind]. eauto. }
  split; [exact H | ].
  destruct H as [msg H]. intros r. rewrite H. discriminate.
Qed.

(** C2, at a record passed by value: the round trip succeeds,
    [setIDValue] returns its error, and [Insert] reports success and leaves
    the identity as it was. *)
Theorem Insert_drops_setIDValue_error :
  setIDValue testObject 7
  = Returns (Some (errNew
               "could not set the ID field after inserting the object"),
             testObject)
  /\ Insert (answering 7 1) testObject = Returns (None, testObject).
Proof. split; reflexivity. Qed.

(** Whatever error [setIDValue] returns after a successful round trip,
    [Insert] returns none. *)
Lemma Insert_ignores_setIDValue :
  forall (db : Database) (arg arg' : value) (argt : rtype)
         (statement : string) (values : list value) (lastID : Z)
         (err : option error),
    getObjectType arg = Returns (Ok argt) ->
    buildInsertStatement argt = Returns statement ->
    buildStatementValues arg = Returns (Ok values) ->
    QueryRowScan db statement values = Ok lastID ->
    setIDValue arg lastID = Returns (err, arg') ->
    Insert db arg = Returns (None, arg').
Proof.
  intros db arg arg' argt statement values lastID err Ht Hs Hv Hq Hset.
  unfold Insert. rewrite Ht. cbn [bind]. rewrite Hs. cbn [bind].
  rewrite Hv. cbn [bind]. rewrite Hq, Hset. reflexivity.
Qed.

(** Through a pointer the identity field takes the identity the round trip
    returned. *)
Lemma Insert_through_pointer :
  Insert (answering 7 1) (VPointer (pointerTo TestItemType) (Some testObject))
  = Returns (None,
             VPointer (pointerTo TestItemType)
               (Some (VStruct TestItemType
                  [ VInt int64Type 7; VString stringType "lashbits.tech";
                    VInt intType 1337; VStruct timeType [];
                    VOther bytesType ]))).
Proof. reflexivity. Qed.

(** ** Updates *)

(** C7: [UpdateOne] returns the row-count error exactly when its update was
    executed without a driver error and the command tag reports a number
    of affected rows other than 1; when the update was executed without a
    driver error and the tag reports 1, it returns no error. *)
Theorem UpdateOne_row_count :
  forall (db : Database) (arg : value),
    (UpdateOne db arg = Returns (Some ErrUnexpectedRowCount) <->
     exists statement values,
       updateOneRequest arg = Returns (Ok (statement, values)) /\
       snd (Exec db statement values) = None /\
       RowsAffected (fst (Exec db statement values)) <> 1)
    /\
    (forall statement values,
       updateOneRequest arg = Returns (Ok (statement, values)) ->
       snd (Exec db statement values) = None ->
       RowsAffected (fst (Exec db statement values)) = 1 ->
       UpdateOne db arg = Returns None).
Proof.
  intros db arg. unfold UpdateOne, updateOneRequest, ErrUnexpectedRowCount.
  destruct (getObjectType arg) as [[argt|e]|m]; cbn [bind];
    try (split; [split; [discriminate | intros (? & ? & ? & _); discriminate]
                | intros; discriminate]).
  destruct (buildUpdateStatement argt "where id = $1" 2) as [[set idx]|m];
    cbn [bind fst];
    try (split; [split; [discriminate | intros (? & ? & ? & _); discriminate]
                | intros; discriminate]).
  destruct (buildStatementValues arg) as [[values|e]|m]; cbn [bind];
    try (split; [split; [discriminate | intros (? & ? & ? & _); discriminate]
                | intros; discriminate]).
  destruct (getIDValue arg) as [[id|e]|m]; cbn [bind];
    try (split; [split; [discriminate | intros (? & ? & ? & _); discriminate]
                | intros; discriminate]).
  destruct (Exec db set (VInt int64Type id :: values)) as [tag err] eqn:Hexec.
  split; [split | ].
  - intros H. exists set, (VInt int64Type id :: values).
    rewrite Hexec. cbn [fst snd].
    destruct err as [err|]; [discriminate | ].
    destruct (Z.eqb_spec (RowsAffected tag) 1); [discriminate | ].
    repeat split; assumption.
  - intros (statement & params & [= <- <-] & Herr & Hrows).
    rewrite Hexec in Herr, Hrows. cbn [fst snd] in *. subst err.
    destruct (Z.eqb_spec (RowsAffected tag) 1); [contradiction | reflexivity].
  - intros statement params [= <- <-] Herr Hrows.
    rewrite Hexec in Herr, Hrows. cbn [fst snd] in *. subst err.
    rewrite Hrows. reflexivity.
Qed.

(** * Further properties *)

(** ** The select statement *)

Lemma selectLoop_spec :
  forall fields n i columnNames,
    n = (i + List.length fields)%nat ->
    selectLoop n i fields columnNames
    = columnNames ++
      String.concat "," (map (fun field => ToLower (Name field)) fields).
Proof.
  induction fields as [|field rest IH]; intros n i acc Hn.
  - cbn. now rewrite append_nil_r.
  - cbn [selectLoop]. destruct rest as [|field' rest'].
    + cbn [List.length] in Hn. subst n. rewrite ltb_last. reflexivity.
    + cbn [List.length] in Hn. subst n. rewrite ltb_more.
      rewrite IH by (cbn [List.length]; lia).
      change (map (fun f => ToLower (Name f)) (field :: field' :: rest'))
        with (ToLower (Name field)
              :: map (fun f => ToLower (Name f)) (field' :: rest')).
      rewrite (concat_cons "," (ToLower (Name field))
                 (map (fun f => ToLower (Name f)) (field' :: rest')))
        by discriminate.
      now rewrite !append_assoc.
Qed.

(** X1: the select statement of a struct type lists the lower-cased names
    of all its fields, the identity included, in declaration order and
    separated by commas, none after the last; the table name and the
    clauses follow as they are. *)
Theorem buildSelectStatement_all_columns :
  forall (argt : rtype) (clauses : string),
    tKind argt = Struct ->
    buildSelectStatement argt clauses
    = Returns ("select " ++
               String.concat ","
                 (map (fun field => ToLower (Name field)) (tFields argt)) ++
               " from " ++ BuildTableName argt ++ " " ++ clauses ++ ";").
Proof.
  intros argt clauses Hkind. unfold buildSelectStatement, NumField.
  rewrite Hkind. cbn [bind]. rewrite selectLoop_spec by reflexivity.
  reflexivity.
Qed.

(** ** Failing derivations *)

Lemma createLoop_first_error :
  forall before n i sqlStatement field after e,
    Forall (fun field => ToLower (Name field) = "id" \/
                         exists ty, mapColumnType field = Returns (Ok ty))
           before ->
    ToLower (Name field) <> "id" ->
    mapColumnType field = Returns (Err e) ->
    createLoop n i (before ++ field :: after)%list sqlStatement
    = Returns (Err e).
Proof.
  induction before as [|first rest IH];
    intros n i acc field after e Hall Hname Hmap.
  - cbn [app createLoop]. apply String.eqb_neq in Hname.
    now rewrite Hname, Hmap.
  - inversion Hall as [|? ? Hfirst Hrest]; subst.
    cbn [app createLoop]. destruct Hfirst as [Hid | [ty Hty]].
    + apply String.eqb_eq in Hid. rewrite Hid. cbn [bind]. now apply IH.
    + destruct (ToLower (Name first) =? "id"); [ | rewrite Hty];
        cbn [bind]; now apply IH.
Qed.

(** X2: the create statement fails with the error of the first field, in
    declaration order, that has no column type; the fields after it are
    not looked at, and no statement is returned. *)
Theorem buildCreateStatement_first_error :
  forall (argt : rtype) (before after : list StructField)
         (field : StructField) (e : error),
    tKind argt = Struct ->
    tFields argt = (before ++ field :: after)%list ->
    Forall (fun field => ToLower (Name field) = "id" \/
                         exists ty, mapColumnType field = Returns (Ok ty))
           before ->
    ToLower (Name field) <> "id" ->
    mapColumnType field = Returns (Err e) ->
    buildCreateStatement argt = Returns (Err e).
Proof.
  intros argt before after field e Hkind Hfields Hall Hname Hmap.
  unfold buildCreateStatement, NumField. rewrite Hkind, Hfields.
  cbn [bind]. now rewrite (createLoop_first_error before _ _ _ field after e).
Qed.

(** ** Parameters *)

Lemma Kind_eqb_refl (k : Kind) : Kind_eqb k k = true.
Proof. unfold Kind_eqb. destruct (Kind_eq_dec k k); congruence. Qed.

Lemma Kind_eqb_neq (a b : Kind) : a <> b -> Kind_eqb a b = false.
Proof. unfold Kind_eqb. destruct (Kind_eq_dec a b); congruence. Qed.

Lemma nth_error_middle {A : Type} (before : list A) (x : A) (after : list A) :
  nth_error (before ++ x :: after)%list (List.length before) = Some x.
Proof. induction before as [|y before IH]; [reflexivity | exact IH]. Qed.

Lemma getObjectValue_pointer (pt t : rtype) (vals : list value) :
  tKind pt = Pointer -> tKind t = Struct ->
  getObjectValue (VPointer pt (Some (VStruct t vals)))
  = Ok (mkValue (Some (VStruct t vals)) true false).
Proof.
  intros Hpt Hkind.
  unfold getObjectValue, Value_Kind, ValueOf, Value_Elem. cbn [rv TypeOf].
  rewrite Hpt, Kind_eqb_refl. cbn [rv TypeOf readOnly].
  now rewrite Hkind, Kind_eqb_refl.
Qed.

(** What [getObjectValue] returns for a record. *)
Lemma getObjectValue_record (t : rtype) (vals : list value) (arg : value)
    (addr : bool) :
  recordArg t vals arg addr ->
  tKind t = Struct ->
  getObjectValue arg = Ok (mkValue (Some (VStruct t vals)) addr false).
Proof.
  intros Hrec Hkind. destruct Hrec as [|pt Hpt Helem].
  - unfold getObjectValue, Value_Kind, ValueOf. cbn [rv TypeOf].
    rewrite Hkind, (Kind_eqb_neq Struct Pointer) by discriminate.
    cbn [rv TypeOf]. now rewrite Hkind, Kind_eqb_refl.
  - now apply getObjectValue_pointer.
Qed.

(** What [getObjectType] returns for a record. *)
Lemma getObjectType_record (t : rtype) (vals : list value) (arg : value)
    (addr : bool) :
  recordArg t vals arg addr ->
  tKind t = Struct ->
  getObjectType arg = Returns (Ok t).
Proof.
  intros Hrec Hkind. destruct Hrec as [|pt Hpt Helem].
  - unfold getObjectType. cbn [TypeOf].
    rewrite Hkind, (Kind_eqb_neq Struct Pointer) by discriminate.
    cbn [bind]. now rewrite Hkind, Kind_eqb_refl.
  - unfold getObjectType, Elem. cbn [TypeOf].
    rewrite Hpt, Helem, Kind_eqb_refl. cbn [bind].
    now rewrite Hkind, Kind_eqb_refl.
Qed.

Lemma valuesLoop_spec (t : rtype) (allvals : list value) (addr : bool) :
  forall fields vals before beforeVals values,
    tFields t = (before ++ fields)%list ->
    allvals = (beforeVals ++ vals)%list ->
    List.length before = List.length beforeVals ->
    List.length fields = List.length vals ->
    Forall readable fields ->
    valuesLoop (mkValue (Some (VStruct t allvals)) addr false)
               (List.length before) fields values
    = Returns (values ++ nonIDValues fields vals)%list.
Proof.
  induction fields as [|field fields IH];
    intros vals before beforeVals acc Hf Hv Hlen Hlen' Hread.
  - cbn. now rewrite app_nil_r.
  - destruct vals as [|x vals]; [discriminate Hlen' | ].
    inversion Hread as [|? ? Hfield Hrest]; subst.
    assert (Hnext : forall acc',
      valuesLoop (mkValue (Some (VStruct t (beforeVals ++ x :: vals))) addr
                          false)
                 (List.length before + 1) fields acc'
      = Returns (acc' ++ nonIDValues fields vals)%list).
    { intros acc'.
      replace (List.length before + 1)%nat
        with (List.length (before ++ [field])%list)
        by (rewrite length_app; reflexivity).
      apply (IH vals (before ++ [field])%list (beforeVals ++ [x])%list).
      - now rewrite <- app_assoc.
      - now rewrite <- app_assoc.
      - rewrite !length_app. cbn. lia.
      - cbn in Hlen'. lia.
      - assumption. }
    cbn [valuesLoop nonIDValues]. destruct (Name field =? "ID") eqn:Hid.
    + apply Hnext.
    + destruct Hfield as [Hfield | Hpkg]; [congruence | ].
      unfold Value_Field. cbn [rv]. rewrite Hf, nth_error_middle.
      replace (nth_error (beforeVals ++ x :: vals) (List.length before))
        with (Some x) by (rewrite Hlen; symmetry; apply nth_error_middle).
      cbn [addressable readOnly orb]. rewrite Hpkg. cbn [String.eqb negb].
      unfold Value_Interface. cbn [rv readOnly bind].
      rewrite Hnext. now rewrite <- app_assoc.
Qed.

Lemma nonIDValues_length :
  forall fields vals,
    List.length fields = List.length vals ->
    List.length (nonIDValues fields vals) = List.length (nonID fields).
Proof.
  induction fields as [|field fields IH]; intros vals Hlen; [reflexivity | ].
  destruct vals as [|x vals]; [discriminate Hlen | ].
  unfold nonID. cbn [nonIDValues filter].
  destruct (Name field =? "ID"); cbn [negb List.length];
    fold (nonID fields); rewrite IH by (cbn in Hlen; lia); reflexivity.
Qed.

Lemma placeholders_length (k : Z) (n : nat) :
  List.length (placeholders k n) = n.
Proof.
  revert k. induction n as [|n IH]; intros k; [reflexivity | ].
  cbn. now rewrite IH.
Qed.

Lemma buildStatementValues_record (t : rtype) (vals : list value)
    (arg : value) (addr : bool) :
  recordArg t vals arg addr ->
  tKind t = Struct ->
  List.length (tFields t) = List.length vals ->
  Forall readable (tFields t) ->
  buildStatementValues arg = Returns (Ok (nonIDValues (tFields t) vals)).
Proof.
  intros Hrec Hkind Hlen Hread. unfold buildStatementValues.
  rewrite (getObjectValue_record t vals arg addr Hrec Hkind).
  cbn [rv TypeOf]. change 0%nat with (List.length (@nil StructField)).
  rewrite (valuesLoop_spec t vals addr (tFields t) vals [] [] []);
    try reflexivity; assumption.
Qed.

(** X3: for a record, passed by value or behind a pointer, whose fields
    other than "ID" are exported, the parameters are the values of the
    fields other than "ID" in declaration order; there are as many of them
    as the insert statement has placeholders. *)
Theorem buildStatementValues_non_identity_fields :
  forall (t : rtype) (vals : list value) (arg : value) (addr : bool),
    recordArg t vals arg addr ->
    tKind t = Struct ->
    List.length (tFields t) = List.length vals ->
    Forall readable (tFields t) ->
    buildStatementValues arg = Returns (Ok (nonIDValues (tFields t) vals)) /\
    List.length (nonIDValues (tFields t) vals)
    = List.length (placeholders 1 (List.length (nonID (tFields t)))).
Proof.
  intros t vals arg addr Hrec Hkind Hlen Hread. split.
  - now apply (buildStatementValues_record t vals arg addr).
  - now rewrite placeholders_length, nonIDValues_length.
Qed.

Lemma valuesLoop_panics (t : rtype) (allvals : list value) (addr : bool) :
  forall fields vals before beforeVals values,
    tFields t = (before ++ fields)%list ->
    allvals = (beforeVals ++ vals)%list ->
    List.length before = List.length beforeVals ->
    List.length fields = List.length vals ->
    Exists (fun field => (Name field =? "ID") = false /\ PkgPath field <> "")
           fields ->
    exists msg,
      valuesLoop (mkValue (Some (VStruct t allvals)) addr false)
                 (List.length before) fields values
      = Panics msg.
Proof.
  induction fields as [|field fields IH];
    intros vals before beforeVals acc Hf Hv Hlen Hlen' Hex.
  - inversion Hex.
  - destruct vals as [|x vals]; [discriminate Hlen' | ]. subst allvals.
    assert (Hnext : Exists (fun field => (Name field =? "ID") = false /\
                                         PkgPath field <> "") fields ->
      forall acc', exists msg,
        valuesLoop (mkValue (Some (VStruct t (beforeVals ++ x :: vals))) addr
                            false)
                   (List.length before + 1) fields acc'
        = Panics msg).
    { intros Hex' acc'.
      replace (List.length before + 1)%nat
        with (List.length (before ++ [field])%list)
        by (rewrite length_app; reflexivity).
      apply (IH vals (before ++ [field])%list (beforeVals ++ [x])%list).
      - now rewrite <- app_assoc.
      - now rewrite <- app_assoc.
      - rewrite !length_app. cbn. lia.
      - cbn in Hlen'. lia.
      - assumption. }
    cbn [valuesLoop]. destruct (Name field =? "ID") eqn:Hid.
    + apply Hnext. inversion Hex as [? ? [Hhead _] | ? ? Htail]; subst;
        [congruence | assumption].
    + unfold Value_Field. cbn [rv]. rewrite Hf, nth_error_middle.
      replace (nth_error (beforeVals ++ x :: vals) (List.length before))
        with (Some x) by (rewrite Hlen; symmetry; apply nth_error_middle).
      cbn [addressable readOnly orb]. unfold Value_Interface.
      cbn [rv readOnly]. destruct (PkgPath field =? "") eqn:Hpkg.
      * cbn [negb bind]. apply Hnext.
        inversion Hex as [? ? [_ Hhead] | ? ? Htail]; subst;
          [ | assumption].
        apply String.eqb_eq in Hpkg. contradiction.
      * cbn [negb bind]. eauto.
Qed.

(** X4: a record with a field other than "ID" that is not exported has no
    parameters: reading that field panics, no error is returned. *)
Theorem buildStatementValues_unexported_field :
  forall (t : rtype) (vals : list value) (arg : value) (addr : bool),
    recordArg t vals arg addr ->
    tKind t = Struct ->
    List.length (tFields t) = List.length vals ->
    Exists (fun field => (Name field =? "ID") = false /\ PkgPath field <> "")
           (tFields t) ->
    exists msg, buildStatementValues arg = Panics msg.
Proof.
  intros t vals arg addr Hrec Hkind Hlen Hex. unfold buildStatementValues.
  rewrite (getObjectValue_record t vals arg addr Hrec Hkind).
  cbn [rv TypeOf]. change 0%nat with (List.length (@nil StructField)).
  destruct (valuesLoop_panics t vals addr (tFields t) vals [] [] []
              eq_refl eq_refl eq_refl Hlen Hex) as [msg ->].
  cbn [bind]. eauto.
Qed.

(** ** Reading and writing the identity *)











(** [setIDValue] through a pointer to a struct whose "ID" field is
    exported and of a signed integer kind. *)
Lemma setIDValue_pointer (pt t : rtype) (vals : list value) (i : nat)
    (field : StructField) (old : value) (bits x : Z) :
  tKind pt = Pointer -> tKind t = Struct ->
  fieldIndex (tFields t) "ID" = Some i ->
  nth_error (tFields t) i = Some field -> PkgPath field = "" ->
  nth_error vals i = Some old ->
  intBits (tKind (TypeOf old)) = Some bits ->
  setIDValue (VPointer pt (Some (VStruct t vals))) x
  = Returns (None,
             VPointer pt
               (Some (VStruct t (setNth vals i
                                   (VInt (TypeOf old) (wrapBits bits x)))))).
Proof.
  intros Hpt Hkind Hidx Hf Hpkg Hold Hbits. unfold setIDValue.
  rewrite (getObjectValue_pointer pt t vals Hpt Hkind).
  unfold FieldByName, Value_Field. cbn [rv]. rewrite Hidx, Hf, Hold.
  unfold IsValid, CanSet, SetInt, Value_Kind.
  cbn [rv addressable readOnly]. rewrite Hpkg, Hbits.
  cbn [String.eqb negb orb andb bind storeField]. now rewrite Hidx.
Qed.

(** ** Inserts *)

(** X8: when a pointer to a record is inserted, the round trip returns an
    identity, and the "ID" field of the record is exported and of a signed
    integer kind, [Insert] returns no error and leaves the record with that
    identity, cut to the width of the field, in its "ID" field and nothing
    else changed. *)
Theorem Insert_sets_identity :
  forall (db : Database) (pt t : rtype) (vals values : list value)
         (statement : string) (lastID : Z) (i : nat) (field : StructField)
         (old : value) (bits : Z),
    recordArg t vals (VPointer pt (Some (VStruct t vals))) true ->
    tKind t = Struct ->
    buildInsertStatement t = Returns statement ->
    buildStatementValues (VPointer pt (Some (VStruct t vals)))
    = Returns (Ok values) ->
    QueryRowScan db statement values = Ok lastID ->
    fieldIndex (tFields t) "ID" = Some i ->
    nth_error (tFields t) i = Some field -> PkgPath field = "" ->
    nth_error vals i = Some old ->
    intBits (tKind (TypeOf old)) = Some bits ->
    Insert db (VPointer pt (Some (VStruct t vals)))
    = Returns (None,
               VPointer pt
                 (Some (VStruct t (setNth vals i
                                     (VInt (TypeOf old)
                                           (wrapBits bits lastID)))))).
Proof.
  intros db pt t vals values statement lastID i field old bits
         Hrec Hkind Hstmt Hvals Hquery Hidx Hf Hpkg Hold Hbits.
  assert (Hpt : tKind pt = Pointer) by (inversion Hrec; assumption).
  apply (Insert_ignores_setIDValue db _ _ t statement values lastID None);
    try assumption.
  - now apply (getObjectType_record t vals _ true).
  - now apply (setIDValue_pointer pt t vals i field old bits).
Qed.

Lemma Sprintf_insert_errmsg (name : string) :
  String.prefix "could not insert object"
    (Sprintf "could not insert object of type %s" [FStr name]) = true.
Proof. reflexivity. Qed.

(** X9: every error [Insert] returns is a cause wrapped in a message that
    begins "could not insert object", and the argument is then as it was
    given. *)
Theorem Insert_errors_are_wrapped :
  forall (db : Database) (arg arg' : value) (e : error),
    Insert db arg = Returns (Some e, arg') ->
    arg' = arg /\
    exists cause msg,
      e = errWrap cause msg /\
      String.prefix "could not insert object" msg = true.
Proof.
  intros db arg arg' e. unfold Insert.
  destruct (getObjectType arg) as [[argt|err]|m]; cbn [bind];
    [ | intros [= <- <-]; split; [reflexivity | eauto] | discriminate].
  destruct (buildInsertStatement argt) as [statement|m]; cbn [bind];
    [ | discriminate].
  destruct (buildStatementValues arg) as [[values|err]|m]; cbn [bind];
    [ | intros [= <- <-]; split; [reflexivity | eauto] | discriminate].
  destruct (QueryRowScan db statement values) as [lastID|err].
  - destruct (setIDValue arg lastID) as [r|m]; cbn [bind]; discriminate.
  - intros [= <- <-]. split; [reflexivity | ].
    exists err, (Sprintf "could not insert object of type %s"
                         [FStr (tName argt)]).
    split; [reflexivity | apply Sprintf_insert_errmsg].
Qed.

(** ** Updates of records *)

Lemma fieldIndex_nth (fields : list StructField) (name : string) (i : nat) :
  fieldIndex fields name = Some i ->
  exists field, nth_error fields i = Some field /\ Name field = name.
Proof.
  revert i. induction fields as [|first rest IH]; intros i; [discriminate | ].
  cbn [fieldIndex]. destruct (Name first =? name) eqn:Hname.
  - intros [= <-]. exists first. split; [reflexivity | ].
    now apply String.eqb_eq.
  - destruct (fieldIndex rest name) as [j|]; [ | discriminate].
    intros [= <-]. destruct (IH j eq_refl) as (field & Hnth & Hn).
    exists field. split; assumption.
Qed.

Lemma getIDValue_record (t : rtype) (vals : list value) (arg : value)
    (addr : bool) (i : nat) (ty : rtype) (id bits : Z) :
  recordArg t vals arg addr ->
  tKind t = Struct ->
  fieldIndex (tFields t) "ID" = Some i ->
  nth_error vals i = Some (VInt ty id) ->
  intBits (tKind ty) = Some bits ->
  getIDValue arg = Returns (Ok id).
Proof.
  intros Hrec Hkind Hidx Hold Hbits. unfold getIDValue.
  rewrite (getObjectValue_record t vals arg addr Hrec Hkind).
  destruct (fieldIndex_nth _ _ _ Hidx) as (field & Hf & _).
  unfold FieldByName, Value_Field. cbn [rv]. rewrite Hidx, Hf, Hold.
  unfold IsValid, Value_Int, Value_Kind. cbn [rv negb TypeOf].
  now rewrite Hbits.
Qed.


Lemma assignments_length (k : Z) (names : list string) :
  List.length (assignments k names) = List.length names.
Proof.
  revert k. induction names as [|name names IH]; intros k; [reflexivity | ].
  cbn. now rewrite IH.
Qed.

(** X10: for a record whose fields other than "ID" are exported and whose
    "ID" holds the integer [id], what [UpdateOne] returns is decided by the
    answer of the connection to one command: the update statement with the
    placeholders [$2], [$3], ... in the SET list and [$1] in the clause,
    sent with the parameters [id] followed by the values of the fields
    other than "ID" in declaration order.  There is one parameter for each
    placeholder, in the order of the placeholders. *)
Theorem UpdateOne_sends_identity_first :
  forall (db : Database) (t : rtype) (vals : list value) (arg : value)
         (addr : bool) (i : nat) (ty : rtype) (id bits : Z)
         (tag : CommandTag) (err : option error),
    recordArg t vals arg addr ->
    tKind t = Struct ->
    List.length (tFields t) = List.length vals ->
    Forall readable (tFields t) ->
    fieldIndex (tFields t) "ID" = Some i ->
    nth_error vals i = Some (VInt ty id) ->
    intBits (tKind ty) = Some bits ->
    2 + Z.of_nat (List.length (nonID (tFields t))) <= maxInt ->
    Exec db ("update " ++ BuildTableName t ++ " set " ++
             commaList (trailingComma (tFields t))
                       (assignments 2 (updateNames (tFields t))) ++
             " where id = $1;")
            (VInt int64Type id :: nonIDValues (tFields t) vals)
    = (tag, err) ->
    UpdateOne db arg
    = Returns (match err with
               | Some e => Some (errWrap e "could not update object")
               | None => if (RowsAffected tag =? 1)%Z then None
                         else Some ErrUnexpectedRowCount
               end)
    /\ List.length (assignments 2 (updateNames (tFields t)))
       = List.length (nonIDValues (tFields t) vals).
Proof.
  intros db t vals arg addr i ty id bits tag err Hrec Hkind Hlen Hread Hidx
         Hold Hbits Hfit Hexec.
  split.
  - unfold UpdateOne.
    rewrite (getObjectType_record t vals arg addr Hrec Hkind). cbn [bind].
    rewrite (buildUpdateStatement_spec t "where id = $1" 2 Hkind)
      by (unfold minInt; lia).
    cbn [bind fst].
    rewrite (buildStatementValues_record t vals arg addr Hrec Hkind Hlen Hread).
    cbn [bind].
    rewrite (getIDValue_record t vals arg addr i ty id bits Hrec Hkind Hidx
               Hold Hbits).
    cbn [bind].
    match goal with
    | |- context [Exec db ?statement ?params] =>
        replace (Exec db statement params) with (tag, err)
          by (rewrite <- Hexec; reflexivity)
    end.
    destruct err as [e|]; [reflexivity | ].
    destruct (RowsAffected tag =? 1)%Z; reflexivity.
  - rewrite assignments_length, nonIDValues_length by assumption.
    unfold updateNames. now rewrite length_map.
Qed.


Lemma Value_Field_addressable (r : option value) (a a' ro : bool) (i : nat) :
  Value_Interface (Value_Field (mkValue r a ro) i)
  = Value_Interface (Value_Field (mkValue r a' ro) i).
Proof.
  unfold Value_Field. cbn [rv addressable readOnly].
  destruct r as [[ | |t vals| | ]|]; try reflexivity.
  destruct (nth_error (tFields t) i); [ | reflexivity].
  destruct (nth_error vals i); reflexivity.
Qed.

Lemma valuesLoop_addressable (r : option value) (a a' ro : bool) :
  forall fields i values,
    valuesLoop (mkValue r a ro) i fields values
    = valuesLoop (mkValue r a' ro) i fields values.
Proof.
  induction fields as [|field fields IH]; intros i acc; [reflexivity | ].
  cbn [valuesLoop]. destruct (Name field =? "ID"); [apply IH | ].
  rewrite (Value_Field_addressable r a a' ro i).
  destruct (Value_Interface (Value_Field (mkValue r a' ro) i)); cbn [bind];
    [apply IH | reflexivity].
Qed.

(** X12: [UpdateOne] does the same for a struct passed by value and for a
    pointer to it. *)
Theorem UpdateOne_value_or_pointer :
  forall (db : Database) (pt t : rtype) (vals : list value),
    tKind pt = Pointer -> tElem pt = Some t -> tKind t = Struct ->
    UpdateOne db (VPointer pt (Some (VStruct t vals)))
    = UpdateOne db (VStruct t vals).
Proof.
  intros db pt t vals Hpt Helem Hkind.
  assert (Hp : recordArg t vals (VPointer pt (Some (VStruct t vals))) true)
    by (now constructor).
  assert (Hv : recordArg t vals (VStruct t vals) false) by constructor.
  assert (Hvalues : buildStatementValues (VPointer pt (Some (VStruct t vals)))
                    = buildStatementValues (VStruct t vals)).
  { unfold buildStatementValues.
    rewrite (getObjectValue_record t vals _ true Hp Hkind).
    rewrite (getObjectValue_record t vals _ false Hv Hkind).
    cbn [rv TypeOf].
    now rewrite (valuesLoop_addressable _ true false false). }
  assert (Hid : getIDValue (VPointer pt (Some (VStruct t vals)))
                = getIDValue (VStruct t vals)).
  { unfold getIDValue.
    rewrite (getObjectValue_record t vals _ true Hp Hkind).
    rewrite (getObjectValue_record t vals _ false Hv Hkind).
    unfold FieldByName, Value_Field, IsValid, Value_Int, Value_Kind.
    cbn [rv addressable readOnly].
    destruct (fieldIndex (tFields t) "ID") as [i|]; [ | reflexivity].
    destruct (nth_error (tFields t) i); [ | reflexivity].
    destruct (nth_error vals i); reflexivity. }
  unfold UpdateOne.
  rewrite (getObjectType_record t vals _ true Hp Hkind).
  rewrite (getObjectType_record t vals _ false Hv Hkind).
  cbn [bind]. now rewrite Hvalues, Hid.
Qed.

(** ** Creating tables *)

Lemma Sprintf_drop (s : string) :
  Sprintf "drop table if exists %s cascade;" [FStr s]
  = "drop table if exists " ++ s ++ " cascade;".
Proof. reflexivity. Qed.

Lemma Sprintf_create_errmsg (s : string) :
  Sprintf "could not create table %s" [FStr s] = "could not create table " ++ s.
Proof. cbn. now rewrite append_nil_r. Qed.

(** X13: when the type has no create statement, [CreateTable] with
    [dropExisting] has already sent the drop of the table when it returns
    the error of the derivation; without [dropExisting] it has sent
    nothing. *)
Theorem CreateTable_drops_before_deriving :
  forall (db : Database) (t : rtype) (e : error),
    buildCreateStatement t = Returns (Err e) ->
    snd (Exec db ("drop table if exists " ++ BuildTableName t ++ " cascade;")
              []) = None ->
    CreateTable db t true
    = Returns (Some (errWrap e ("could not create table " ++ BuildTableName t)),
               ["drop table if exists " ++ BuildTableName t ++ " cascade;"])
    /\ CreateTable db t false
       = Returns (Some (errWrap e ("could not create table "
                                   ++ BuildTableName t)), []).
Proof.
  intros db t e Hbuild Hdrop. unfold CreateTable.
  rewrite Sprintf_drop, Sprintf_create_errmsg, Hdrop, Hbuild.
  split; reflexivity.
Qed.

(** ** One table for all statements *)

Lemma prefix_app (a b : string) : String.prefix a (a ++ b) = true.
Proof.
  induction a as [|c a IH]; [now destruct b | ].
  cbn. destruct (ascii_dec c c); [exact IH | congruence].
Qed.

(** X14: the statements of a struct type all address one table, the one
    [BuildTableName] names: the create statement begins with its creation,
    and the select, insert, update and delete statements name it after
    [from], [into], [update] and [from]. *)
Theorem statements_address_one_table :
  forall (t : rtype) (clauses : string) (k : Z),
    tKind t = Struct ->
    (forall statement,
        buildCreateStatement t = Returns (Ok statement) ->
        String.prefix ("create table " ++ BuildTableName t ++ " (") statement
        = true) /\
    (exists columns,
        buildSelectStatement t clauses
        = Returns ("select " ++ columns ++ " from " ++ BuildTableName t ++ " "
                   ++ clauses ++ ";")) /\
    (exists columns indices,
        buildInsertStatement t
        = Returns ("insert into " ++ BuildTableName t ++ " (" ++ columns
                   ++ ") values (" ++ indices ++ ") returning id;")) /\
    (exists set next,
        buildUpdateStatement t clauses k
        = Returns ("update " ++ BuildTableName t ++ " set " ++ set ++ " "
                   ++ clauses ++ ";", next)) /\
    buildDeleteStatement t clauses
    = "delete from " ++ BuildTableName t ++ " " ++ clauses ++ ";".
Proof.
  intros t clauses k Hkind. repeat split.
  - intros statement Hbuild. unfold buildCreateStatement, NumField in Hbuild.
    rewrite Hkind in Hbuild. cbn [bind] in Hbuild.
    destruct (createLoop _ 0 (tFields t) _) as [[body|e]|m] eqn:Hloop;
      try discriminate.
    injection Hbuild as <-.
    apply createLoop_clauses in Hloop; [ | reflexivity].
    destruct Hloop as (types & _ & ->).
    rewrite Sprintf_create.
    set (head := "create table " ++ BuildTableName t ++ " (").
    rewrite (append_assoc head). apply prefix_app.
  - unfold buildSelectStatement, NumField. rewrite Hkind. cbn [bind].
    eexists. reflexivity.
  - unfold buildInsertStatement, NumField. rewrite Hkind. cbn [bind].
    destruct (insertLoop _ 0 (tFields t) _) as [[columns indices] next].
    rewrite Sprintf_insert. eauto.
  - unfold buildUpdateStatement, NumField. rewrite Hkind. cbn [bind].
    destruct (updateLoop _ 0 (tFields t) _) as [set next].
    rewrite Sprintf_update. eauto.
Qed.

(** ** Pointers to slices *)

(** X15: [getSliceValue] accepts exactly the pointers that are not nil and
    point to a slice, and returns the slice, addressable;
    [getSliceElemType] returns an error for exactly the arguments that
    [getSliceValue] rejects. *)
Theorem getSliceValue_accepts_pointers_to_slices :
  forall arg : value,
    (forall slice,
        getSliceValue arg = Ok slice <->
        exists pt target,
          arg = VPointer pt (Some target) /\ tKind pt = Pointer /\
          tKind (TypeOf target) = Slice /\
          slice = mkValue (Some target) true false) /\
    ((exists e, getSliceValue arg = Err e) <->
     (exists e, getSliceElemType arg = Returns (Err e))).
Proof.
  intros arg. unfold getSliceValue, getSliceElemType.
  destruct (Kind_eq_dec (tKind (TypeOf arg)) Pointer) as [Hptr | Hptr].
  - rewrite Hptr, Kind_eqb_refl. cbn [negb].
    unfold Value_Elem, ValueOf, Value_Kind. cbn [rv readOnly].
    destruct arg as [ty n|ty str|ty fs|pt [target|]|ty];
      try (unfold zeroValue; cbn [rv];
           rewrite (Kind_eqb_neq Invalid Slice) by discriminate; cbn [negb];
           split; [intros slice; split;
                     [discriminate
                     | intros (? & ? & [=] & _) ]
                  | split; eauto ]).
    cbn [rv]. destruct (Kind_eq_dec (tKind (TypeOf target)) Slice) as [Hs|Hs].
    + rewrite Hs, Kind_eqb_refl. cbn [negb]. split.
      * intros slice. split.
        -- intros [= <-]. exists pt, target. repeat split; assumption.
        -- intros (pt' & target' & [= <- <-] & _ & _ & ->). reflexivity.
      * split; [intros [e He]; discriminate He | ].
        intros [e He]. unfold Value_Type in He. cbn [rv bind] in He.
        destruct (Elem (TypeOf target)) as [et|]; cbn [bind] in He;
          [ | discriminate].
        destruct (Elem et); discriminate He.
    + rewrite (Kind_eqb_neq _ _ Hs). cbn [negb]. split.
      * intros slice. split; [discriminate | ].
        intros (pt' & target' & [= <- <-] & _ & Hk & _). contradiction.
      * split; eauto.
  - rewrite (Kind_eqb_neq _ _ Hptr). cbn [negb]. split.
    + intros slice. split; [discriminate | ].
      intros (pt & target & -> & Hk & _). cbn [TypeOf] in Hptr. contradiction.
    + split; eauto.
Qed.

(** X16: for a pointer to a slice of pointers, [getSliceElemType] returns
    the type the elements point to; for a pointer to a slice whose elements
    are structs it panics. *)
Theorem getSliceElemType_of_pointers :
  forall (pt st et : rtype) (target : value),
    tKind pt = Pointer ->
    TypeOf target = st -> tKind st = Slice -> tElem st = Some et ->
    (forall t, tKind et = Pointer -> tElem et = Some t ->
       getSliceElemType (VPointer pt (Some target)) = Returns (Ok t)) /\
    (tKind et = Struct ->
       exists msg, getSliceElemType (VPointer pt (Some target)) = Panics msg).
Proof.
  intros pt st et target Hpt Hst Hslice Helem.
  assert (Hstart : getSliceElemType (VPointer pt (Some target))
                   = (t <- Elem et ;; Returns (Ok t))).
  { unfold getSliceElemType, Value_Elem, ValueOf, Value_Kind, Value_Type.
    cbn [TypeOf rv readOnly]. rewrite Hpt, Kind_eqb_refl. cbn [negb rv].
    rewrite Hst, Hslice, Kind_eqb_refl. cbn [negb bind].
    unfold Elem at 1. now rewrite Hslice, Helem. }
  rewrite Hstart. split.
  - intros t Hk He. unfold Elem. now rewrite Hk, He.
  - intros Hk. unfold Elem. rewrite Hk. cbn [bind]. eauto.
Qed.

(** ** Storing scanned values *)

Lemma TypeOf_zeroOf (t : rtype) : TypeOf (zeroOf t) = t.
Proof.
  destruct t as [name pkg kind elem fields].
  destruct kind; reflexivity.
Qed.

Lemma zeroOf_struct (t : rtype) :
  tKind t = Struct ->
  zeroOf t = VStruct t (map (fun field => zeroOf (FType field)) (tFields t)).
Proof.
  destruct t as [name pkg kind elem fields]. cbn [tKind]. intros ->.
  reflexivity.
Qed.

Lemma withType_same (x : value) : withType (TypeOf x) x = x.
Proof. destruct x; reflexivity. Qed.

Lemma setNth_middle {A : Type} (before : list A) (old x : A) (after : list A) :
  setNth (before ++ old :: after)%list (List.length before) x
  = (before ++ x :: after)%list.
Proof.
  induction before as [|y before IH]; [reflexivity | ].
  cbn. now rewrite IH.
Qed.

Lemma buildSliceFromFields_struct (t : rtype) :
  tKind t = Struct ->
  buildSliceFromFields t
  = Returns (map (fun field => New (FType field)) (tFields t)).
Proof.
  intros Hkind. unfold buildSliceFromFields, NumField. now rewrite Hkind.
Qed.

Lemma elemOf_pointer (v x : value) :
  pointsTo v x -> elemOf v = Returns (mkValue (Some x) true false).
Proof.
  intros (pt & -> & Hpt). unfold elemOf, Value_Elem, ValueOf.
  cbn [TypeOf rv readOnly]. now rewrite Hpt, Kind_eqb_refl.
Qed.

Lemma setFieldsLoop_stores (t : rtype) :
  forall fields values row olds before done,
    tFields t = (before ++ fields)%list ->
    List.length before = List.length done ->
    List.length fields = List.length olds ->
    Forall (fun field => PkgPath field = "") fields ->
    Forall2 pointsTo values row ->
    Forall2 (fun old x => TypeOf x = TypeOf old) olds row ->
    setFieldsLoop true t (List.length before) fields values
                  (done ++ olds)%list
    = Returns (done ++ row)%list.
Proof.
  induction fields as [|field fields IH];
    intros values row olds before done Hf Hlen Hlen' Hexp Hvals Htypes.
  - destruct olds; [ | discriminate Hlen']. inversion Htypes; subst.
    reflexivity.
  - destruct olds as [|old olds]; [discriminate Hlen' | ].
    inversion Htypes as [|? x ? row' Hty Htypes']; subst.
    inversion Hvals as [|v ? values' ? Hv Hvals']; subst.
    inversion Hexp as [|? ? Hpkg Hexp']; subst.
    cbn [setFieldsLoop]. rewrite (elemOf_pointer v x Hv). cbn [bind].
    unfold Value_Field. cbn [rv]. rewrite Hf, nth_error_middle.
    replace (nth_error (done ++ old :: olds) (List.length before))
      with (Some old) by (rewrite Hlen; symmetry; apply nth_error_middle).
    unfold Value_Set, CanSet. cbn [addressable readOnly rv orb].
    rewrite Hpkg. cbn [String.eqb negb andb].
    rewrite Hty, assignable_refl, <- Hty, withType_same. cbn [bind].
    rewrite Hlen, setNth_middle.
    replace (List.length done + 1)%nat
      with (List.length (before ++ [field])%list)
      by (rewrite length_app, Hlen; reflexivity).
    replace (done ++ x :: olds)%list with ((done ++ [x]) ++ olds)%list
      by (now rewrite <- app_assoc).
    rewrite (IH values' row' olds (before ++ [field])%list (done ++ [x])%list).
    + now rewrite <- app_assoc.
    + now rewrite <- app_assoc.
    + rewrite !length_app. cbn. lia.
    + cbn in Hlen'. lia.
    + assumption.
    + assumption.
    + assumption.
Qed.

Lemma Forall2_length' {A B : Type} (R : A -> B -> Prop) (l : list A)
    (l' : list B) :
  Forall2 R l l' -> List.length l = List.length l'.
Proof. induction 1; cbn; congruence. Qed.

Lemma setObjectFields_pointer (pt t : rtype) (vals values row : list value) :
  tKind pt = Pointer -> tKind t = Struct ->
  List.length (tFields t) = List.length vals ->
  Forall (fun field => PkgPath field = "") (tFields t) ->
  Forall2 pointsTo values row ->
  Forall2 (fun old x => TypeOf x = TypeOf old) vals row ->
  setObjectFields (VPointer pt (Some (VStruct t vals))) values
  = Returns (None, VPointer pt (Some (VStruct t row))).
Proof.
  intros Hpt Hkind Hlen Hexp Hvals Htypes. unfold setObjectFields.
  rewrite (getObjectValue_pointer pt t vals Hpt Hkind). cbn [rv addressable].
  assert (Hcount : List.length values = List.length (tFields t)).
  { rewrite (Forall2_length' _ _ _ Hvals), <- (Forall2_length' _ _ _ Htypes).
    now symmetry. }
  rewrite Hcount, Nat.eqb_refl. cbn [negb].
  pose proof (setFieldsLoop_stores t (tFields t) values row vals [] []
                eq_refl eq_refl Hlen Hexp Hvals Htypes) as Hloop.
  cbn [List.length app] in Hloop. now rewrite Hloop.
Qed.

(** X17: through a pointer to a record whose fields are all exported,
    [setObjectFields] given one pointer for each field, each pointing to a
    value of the type of its field, returns no error and leaves the record
    holding exactly the values pointed to, in declaration order. *)
Theorem setObjectFields_stores_all_fields :
  forall (pt t : rtype) (vals values row : list value),
    tKind pt = Pointer -> tKind t = Struct ->
    List.length (tFields t) = List.length vals ->
    Forall (fun field => PkgPath field = "") (tFields t) ->
    Forall2 pointsTo values row ->
    Forall2 (fun old x => TypeOf x = TypeOf old) vals row ->
    setObjectFields (VPointer pt (Some (VStruct t vals))) values
    = Returns (None, VPointer pt (Some (VStruct t row))).
Proof.
  intros pt t vals values row Hpt Hkind Hlen Hexp Hvals Htypes.
  unfold setObjectFields.
  rewrite (getObjectValue_pointer pt t vals Hpt Hkind). cbn [rv addressable].
  replace (List.length values) with (List.length (tFields t)).
  - rewrite Nat.eqb_refl. cbn [negb].
    pose proof (setFieldsLoop_stores t (tFields t) values row vals [] []
                  eq_refl eq_refl Hlen Hexp Hvals Htypes) as Hloop.
    cbn [List.length app] in Hloop. now rewrite Hloop.
  - rewrite (Forall2_length' _ _ _ Hvals), <- (Forall2_length' _ _ _ Htypes).
    exact Hlen.
Qed.

(** X18: when the number of values is not the number of fields of the
    record, [setObjectFields] returns the mismatch error and leaves the
    argument as it was, for a struct passed by value as for a pointer. *)
Theorem setObjectFields_count_mismatch :
  forall (t : rtype) (vals values : list value) (arg : value) (addr : bool),
    recordArg t vals arg addr ->
    tKind t = Struct ->
    List.length values <> List.length (tFields t) ->
    setObjectFields arg values
    = Returns (Some (errNew
                 "mismatch between number of fields and number of values"),
               arg).
Proof.
  intros t vals values arg addr Hrec Hkind Hcount. unfold setObjectFields.
  rewrite (getObjectValue_record t vals arg addr Hrec Hkind). cbn [rv].
  apply Nat.eqb_neq in Hcount. now rewrite Hcount.
Qed.

Lemma Value_Set_unsettable (v x : Value) :
  CanSet v = false -> exists msg, Value_Set v x = Panics msg.
Proof. intros Hset. unfold Value_Set. rewrite Hset. cbn [negb]. eauto. Qed.

Lemma CanSet_field_by_value (t : rtype) (vals : list value) (i : nat) :
  CanSet (Value_Field (mkValue (Some (VStruct t vals)) false false) i) = false.
Proof.
  unfold Value_Field, CanSet. cbn [rv addressable].
  destruct (nth_error (tFields t) i); [ | reflexivity].
  destruct (nth_error vals i); reflexivity.
Qed.

(** X19: on a struct with at least one field that is passed by value,
    [setObjectFields] with as many values as fields panics: no field of a
    copy can be set, and no error is returned. *)
Theorem setObjectFields_by_value_panics :
  forall (t : rtype) (vals values : list value),
    tKind t = Struct ->
    tFields t <> [] ->
    List.length values = List.length (tFields t) ->
    exists msg, setObjectFields (VStruct t vals) values = Panics msg.
Proof.
  intros t vals values Hkind Hfields Hcount. unfold setObjectFields.
  rewrite (getObjectValue_record t vals _ false (byValue t vals) Hkind).
  cbn [rv addressable]. rewrite Hcount, Nat.eqb_refl. cbn [negb].
  destruct (tFields t) as [|field fields]; [congruence | ].
  destruct values as [|x values]; [discriminate Hcount | ].
  cbn [setFieldsLoop]. destruct (elemOf x) as [new|msg]; cbn [bind];
    [ | eauto].
  destruct (Value_Set_unsettable _ new (CanSet_field_by_value t vals 0))
    as [msg ->].
  cbn [bind]. eauto.
Qed.

Lemma CanSet_unexported_field (addr : bool) (t : rtype) (vals : list value)
    (before : list StructField) (field : StructField)
    (after : list StructField) :
  tFields t = (before ++ field :: after)%list ->
  PkgPath field <> "" ->
  CanSet (Value_Field (mkValue (Some (VStruct t vals)) addr false)
                      (List.length before)) = false.
Proof.
  intros Hf Hpkg. unfold Value_Field, CanSet. cbn [rv addressable readOnly].
  rewrite Hf, nth_error_middle.
  destruct (nth_error vals (List.length before)); [ | reflexivity].
  cbn [addressable readOnly orb]. apply String.eqb_neq in Hpkg.
  rewrite Hpkg. cbn [negb]. apply andb_false_r.
Qed.

Lemma setFieldsLoop_unexported (addr : bool) (t : rtype) :
  forall fields values vals before,
    tFields t = (before ++ fields)%list ->
    Exists (fun field => PkgPath field <> "") fields ->
    exists msg,
      setFieldsLoop addr t (List.length before) fields values vals
      = Panics msg.
Proof.
  induction fields as [|field fields IH]; intros values vals before Hf Hex.
  - inversion Hex.
  - cbn [setFieldsLoop]. destruct values as [|x values]; [eauto | ].
    destruct (elemOf x) as [new|msg]; cbn [bind]; [ | eauto].
    inversion Hex as [? ? Hhead | ? ? Htail]; subst.
    + destruct (Value_Set_unsettable _ new
                  (CanSet_unexported_field addr t vals before field fields
                     Hf Hhead)) as [msg ->].
      cbn [bind]. eauto.
    + destruct (Value_Set _ new) as [stored|msg]; cbn [bind]; [ | eauto].
      replace (List.length before + 1)%nat
        with (List.length (before ++ [field])%list)
        by (rewrite length_app; reflexivity).
      apply IH; [now rewrite <- app_assoc | assumption].
Qed.

(** X20: on a record with a field that is not exported, [setObjectFields]
    with as many values as fields panics, whatever the values are: such a
    record cannot be filled from a row. *)
Theorem setObjectFields_unexported_field_panics :
  forall (t : rtype) (vals values : list value) (arg : value) (addr : bool),
    recordArg t vals arg addr ->
    tKind t = Struct ->
    List.length values = List.length (tFields t) ->
    Exists (fun field => PkgPath field <> "") (tFields t) ->
    exists msg, setObjectFields arg values = Panics msg.
Proof.
  intros t vals values arg addr Hrec Hkind Hcount Hex. unfold setObjectFields.
  rewrite (getObjectValue_record t vals arg addr Hrec Hkind).
  cbn [rv addressable]. rewrite Hcount, Nat.eqb_refl. cbn [negb].
  change 0%nat with (List.length (@nil StructField)).
  destruct (setFieldsLoop_unexported addr t (tFields t) values vals []
              eq_refl Hex) as [msg ->].
  cbn [bind]. eauto.
Qed.

(** ** Selecting *)

Lemma buildSelectStatement_struct (argt : rtype) (clauses : string) :
  tKind argt = Struct ->
  buildSelectStatement argt clauses
  = Returns ("select " ++
             String.concat ","
               (map (fun field => ToLower (Name field)) (tFields argt)) ++
             " from " ++ BuildTableName argt ++ " " ++ clauses ++ ";").
Proof.
  intros Hkind. unfold buildSelectStatement, NumField.
  rewrite Hkind. cbn [bind]. rewrite selectLoop_spec by reflexivity.
  reflexivity.
Qed.

Lemma pointsTo_slotsHolding (fields : list StructField) (row : list value) :
  List.length fields = List.length row ->
  Forall2 pointsTo (slotsHolding fields row) row.
Proof.
  revert row. induction fields as [|field fields IH]; intros [|x row] Hlen;
    try discriminate Hlen; [constructor | ].
  unfold slotsHolding. cbn [combine map fst snd]. constructor.
  - exists (pointerTo (FType field)). split; reflexivity.
  - apply IH. cbn in Hlen. lia.
Qed.

Lemma typed_alike (fields : list StructField) (vals row : list value) :
  Forall2 (fun field old => TypeOf old = FType field) fields vals ->
  Forall2 (fun field x => TypeOf x = FType field) fields row ->
  Forall2 (fun old x => TypeOf x = TypeOf old) vals row.
Proof.
  intros Hvals. revert row.
  induction Hvals as [|field old fields vals Hold Hvals IH]; intros row Hrow;
    inversion Hrow; subst; constructor.
  - congruence.
  - now apply IH.
Qed.

Lemma Sprintf_select_errmsg (name : string) :
  Sprintf "could not select object of type %s" [FStr name]
  = "could not select object of type " ++ name.
Proof. cbn. now rewrite append_nil_r. Qed.

Lemma Sprintf_selects_errmsg (name : string) :
  Sprintf "could not select objects of type %s" [FStr name]
  = "could not select objects of type " ++ name.
Proof. cbn. now rewrite append_nil_r. Qed.

(** X21: [SelectOne] through a pointer to a record whose fields are all
    exported sends the select statement of the type with the clauses and
    arguments it was given, hands the scan one fresh slot for each field,
    and when the scan stores a row of values of the types of the fields,
    returns no error and leaves the record holding that row. *)
Theorem SelectOne_fills_record :
  forall (q : Queries) (pt t : rtype) (vals row : list value)
         (clauses : string) (args : list value),
    recordArg t vals (VPointer pt (Some (VStruct t vals))) true ->
    tKind t = Struct ->
    Forall (fun field => PkgPath field = "") (tFields t) ->
    Forall2 (fun field old => TypeOf old = FType field) (tFields t) vals ->
    Forall2 (fun field x => TypeOf x = FType field) (tFields t) row ->
    QueryRow q
      ("select " ++
       String.concat "," (map (fun field => ToLower (Name field)) (tFields t))
       ++ " from " ++ BuildTableName t ++ " " ++ clauses ++ ";")
      args
      (map (fun field => New (FType field)) (tFields t))
    = (slotsHolding (tFields t) row, None) ->
    SelectOne q (VPointer pt (Some (VStruct t vals))) clauses args
    = Returns (None, VPointer pt (Some (VStruct t row))).
Proof.
  intros q pt t vals row clauses args Hrec Hkind Hexp Hvals Hrow Hscan.
  assert (Hpt : tKind pt = Pointer) by (inversion Hrec; assumption).
  unfold SelectOne.
  rewrite (getObjectType_record t vals _ true Hrec Hkind). cbn [bind].
  rewrite (buildSelectStatement_struct t clauses Hkind). cbn [bind].
  rewrite (buildSliceFromFields_struct t Hkind). cbn [bind].
  rewrite Hscan.
  rewrite (setObjectFields_pointer pt t vals (slotsHolding (tFields t) row) row);
    try assumption.
  - reflexivity.
  - apply (Forall2_length' _ _ _ Hvals).
  - apply pointsTo_slotsHolding. apply (Forall2_length' _ _ _ Hrow).
  - now apply (typed_alike (tFields t)).
Qed.

(** X22: when the scan of the row fails, [SelectOne] returns the error of
    the scan wrapped with the name of the type and leaves the record as it
    was, for a struct passed by value as for a pointer. *)
Theorem SelectOne_failed_scan :
  forall (q : Queries) (t : rtype) (vals slots : list value) (arg : value)
         (addr : bool) (clauses : string) (args : list value) (err : error),
    recordArg t vals arg addr ->
    tKind t = Struct ->
    QueryRow q
      ("select " ++
       String.concat "," (map (fun field => ToLower (Name field)) (tFields t))
       ++ " from " ++ BuildTableName t ++ " " ++ clauses ++ ";")
      args
      (map (fun field => New (FType field)) (tFields t))
    = (slots, Some err) ->
    SelectOne q arg clauses args
    = Returns (Some (errWrap err ("could not select object of type "
                                  ++ tName t)), arg).
Proof.
  intros q t vals slots arg addr clauses args err Hrec Hkind Hscan.
  unfold SelectOne.
  rewrite (getObjectType_record t vals arg addr Hrec Hkind). cbn [bind].
  rewrite (buildSelectStatement_struct t clauses Hkind). cbn [bind].
  rewrite (buildSliceFromFields_struct t Hkind). cbn [bind].
  rewrite Hscan. now rewrite Sprintf_select_errmsg.
Qed.

Lemma setObjectFields_copy_panics (t : rtype) (vals values : list value) :
  tKind t = Struct ->
  tFields t <> [] ->
  List.length values = List.length (tFields t) ->
  exists msg, setObjectFields (VStruct t vals) values = Panics msg.
Proof.
  intros Hkind Hfields Hcount. unfold setObjectFields.
  rewrite (getObjectValue_record t vals _ false (byValue t vals) Hkind).
  cbn [rv addressable]. rewrite Hcount, Nat.eqb_refl. cbn [negb].
  destruct (tFields t) as [|field fields]; [congruence | ].
  destruct values as [|x values]; [discriminate Hcount | ].
  cbn [setFieldsLoop]. destruct (elemOf x) as [new|msg]; cbn [bind];
    [ | eauto].
  destruct (Value_Set_unsettable _ new (CanSet_field_by_value t vals 0))
    as [msg ->].
  cbn [bind]. eauto.
Qed.

(** X23: [SelectOne] into a struct with at least one field that is passed
    by value panics once the scan has succeeded and left one slot for each
    field: the row that was read is lost and no error is returned. *)
Theorem SelectOne_by_value_panics :
  forall (q : Queries) (t : rtype) (vals slots : list value)
         (clauses : string) (args : list value),
    tKind t = Struct ->
    tFields t <> [] ->
    QueryRow q
      ("select " ++
       String.concat "," (map (fun field => ToLower (Name field)) (tFields t))
       ++ " from " ++ BuildTableName t ++ " " ++ clauses ++ ";")
      args
      (map (fun field => New (FType field)) (tFields t))
    = (slots, None) ->
    List.length slots = List.length (tFields t) ->
    exists msg, SelectOne q (VStruct t vals) clauses args = Panics msg.
Proof.
  intros q t vals slots clauses args Hkind Hfields Hscan Hcount.
  unfold SelectOne.
  rewrite (getObjectType_record t vals _ false (byValue t vals) Hkind).
  cbn [bind].
  rewrite (buildSelectStatement_struct t clauses Hkind). cbn [bind].
  rewrite (buildSliceFromFields_struct t Hkind). cbn [bind].
  rewrite Hscan.
  destruct (setObjectFields_copy_panics t vals slots Hkind Hfields Hcount)
    as [msg ->].
  cbn [bind]. eauto.
Qed.

Lemma setObjectFields_fresh (t : rtype) (row : list value) :
  tKind t = Struct ->
  Forall (fun field => PkgPath field = "") (tFields t) ->
  Forall2 (fun field x => TypeOf x = FType field) (tFields t) row ->
  setObjectFields (New t) (slotsHolding (tFields t) row)
  = Returns (None, VPointer (pointerTo t) (Some (VStruct t row))).
Proof.
  intros Hkind Hexp Hrow. unfold New. rewrite (zeroOf_struct t Hkind).
  apply setObjectFields_pointer; try assumption; try reflexivity.
  - now rewrite length_map.
  - apply pointsTo_slotsHolding. apply (Forall2_length' _ _ _ Hrow).
  - apply (typed_alike (tFields t)); [ | assumption].
    clear. induction (tFields t) as [|field fields IH]; constructor;
      [apply TypeOf_zeroOf | exact IH].
Qed.

Lemma selectRows_all (t : rtype) (errmsg : string) :
  tKind t = Struct ->
  Forall (fun field => PkgPath field = "") (tFields t) ->
  forall scans rows elems,
    Forall2 (scansRow t) scans rows ->
    selectRows t errmsg scans elems
    = Returns (Ok (elems ++ map (VStruct t) rows)%list).
Proof.
  intros Hkind Hexp scans rows elems Hall. revert elems.
  induction Hall as [|scan row scans rows [Hscan Hrow] Hall IH]; intros elems.
  - cbn. now rewrite app_nil_r.
  - cbn [selectRows]. rewrite (buildSliceFromFields_struct t Hkind).
    cbn [bind]. rewrite Hscan.
    rewrite (setObjectFields_fresh t row Hkind Hexp Hrow).
    cbn [bind fst snd]. unfold Value_Elem, ValueOf. cbn [rv readOnly].
    rewrite IH. cbn [map]. now rewrite <- app_assoc.
Qed.

(** X24: for a struct type whose fields are all exported, when the query
    succeeds and every row is scanned into values of the types of the
    fields, [Select] returns one record for each row, in the order of the
    rows, each holding the values of its row; without rows it returns the
    empty slice and no error. *)
Theorem Select_returns_rows :
  forall (q : Queries) (t : rtype) (clauses : string) (args : list value)
         (scans : list scanner) (rows : list (list value)),
    tKind t = Struct ->
    Forall (fun field => PkgPath field = "") (tFields t) ->
    Query q
      ("select " ++
       String.concat "," (map (fun field => ToLower (Name field)) (tFields t))
       ++ " from " ++ BuildTableName t ++ " " ++ clauses ++ ";")
      args
    = (scans, None) ->
    Forall2 (scansRow t) scans rows ->
    Select q t clauses args = Returns (Ok (map (VStruct t) rows)).
Proof.
  intros q t clauses args scans rows Hkind Hexp Hquery Hall. unfold Select.
  rewrite (buildSelectStatement_struct t clauses Hkind). cbn [bind].
  rewrite Hquery. now rewrite (selectRows_all t _ Hkind Hexp scans rows []).
Qed.

Lemma selectRows_failing (t : rtype) (errmsg : string) :
  tKind t = Struct ->
  Forall (fun field => PkgPath field = "") (tFields t) ->
  forall scans rows failing after slots err elems,
    Forall2 (scansRow t) scans rows ->
    failing (map (fun field => New (FType field)) (tFields t))
    = (slots, Some err) ->
    selectRows t errmsg (scans ++ failing :: after)%list elems
    = Returns (Err (errWrap err errmsg)).
Proof.
  intros Hkind Hexp scans rows failing after slots err elems Hall Hfail.
  revert elems.
  induction Hall as [|scan row scans rows [Hscan Hrow] Hall IH]; intros elems.
  - cbn [app selectRows]. rewrite (buildSliceFromFields_struct t Hkind).
    cbn [bind]. now rewrite Hfail.
  - cbn [app selectRows]. rewrite (buildSliceFromFields_struct t Hkind).
    cbn [bind]. rewrite Hscan.
    rewrite (setObjectFields_fresh t row Hkind Hexp Hrow).
    cbn [bind fst snd]. unfold Value_Elem, ValueOf. cbn [rv readOnly].
    apply IH.
Qed.

(** X25: when the scan of a row fails after earlier rows were scanned,
    [Select] returns the error of that scan wrapped with the name of the
    type and no record at all: the rows read before it are dropped and the
    rows after it are not read. *)
Theorem Select_failing_row :
  forall (q : Queries) (t : rtype) (clauses : string) (args : list value)
         (scans after : list scanner) (failing : scanner)
         (rows : list (list value)) (slots : list value) (err : error),
    tKind t = Struct ->
    Forall (fun field => PkgPath field = "") (tFields t) ->
    Query q
      ("select " ++
       String.concat "," (map (fun field => ToLower (Name field)) (tFields t))
       ++ " from " ++ BuildTableName t ++ " " ++ clauses ++ ";")
      args
    = ((scans ++ failing :: after)%list, None) ->
    Forall2 (scansRow t) scans rows ->
    failing (map (fun field => New (FType field)) (tFields t))
    = (slots, Some err) ->
    Select q t clauses args
    = Returns (Err (errWrap err ("could not select objects of type "
                                 ++ tName t))).
Proof.
  intros q t clauses args scans after failing rows slots err Hkind Hexp
         Hquery Hall Hfail.
  unfold Select.
  rewrite (buildSelectStatement_struct t clauses Hkind). cbn [bind].
  rewrite Hquery, Sprintf_selects_errmsg.
  now apply (selectRows_failing t _ Hkind Hexp scans rows failing after slots).
Qed.

(** ** Types that are no structs *)

Lemma NumField_panics (t : rtype) :
  tKind t <> Struct -> exists msg, NumField t = Panics msg.
Proof.
  intros Hkind. unfold NumField. destruct (tKind t); try congruence; eauto.
Qed.

(** X26: for a type that is not a struct, a pointer to a record included,
    the builders of the create, select, insert and update statements panic,
    and so do [CreateTable] without [dropExisting] and [Select], before
    anything is sent; no error is returned. *)
Theorem builders_panic_without_struct :
  forall (t : rtype) (clauses : string) (k : Z),
    tKind t <> Struct ->
    (exists msg, buildCreateStatement t = Panics msg) /\
    (exists msg, buildSelectStatement t clauses = Panics msg) /\
    (exists msg, buildInsertStatement t = Panics msg) /\
    (exists msg, buildUpdateStatement t clauses k = Panics msg) /\
    (forall db, exists msg, CreateTable db t false = Panics msg) /\
    (forall q args, exists msg, Select q t clauses args = Panics msg).
Proof.
  intros t clauses k Hkind.
  destruct (NumField_panics t Hkind) as [msg Hn].
  assert (Hcreate : buildCreateStatement t = Panics msg)
    by (unfold buildCreateStatement; now rewrite Hn).
  assert (Hselect : buildSelectStatement t clauses = Panics msg)
    by (unfold buildSelectStatement; now rewrite Hn).
  repeat split.
  - eauto.
  - eauto.
  - unfold buildInsertStatement. rewrite Hn. cbn [bind]. eauto.
  - unfold buildUpdateStatement. rewrite Hn. cbn [bind]. eauto.
  - intros db. unfold CreateTable. rewrite Hcreate. cbn [bind]. eauto.
  - intros q args. unfold Select. rewrite Hselect. cbn [bind]. eauto.
Qed.

End Liteorm.

(** * Closed instances

    The theorems above at records of the test file and at small records,
    with [noUnicode] for the Unicode tables. *)

Lemma buildCreateStatement_identity_column_witness :
  exists types : list string,
    Forall2 (typedColumn noUnicode) (tFields TestItemType) types /\
    ("create table testitems (id bigserial primary key,"
     ++ "stringcolumn varchar(25) ,intcolumn int ,timecolumn timestamp ,"
     ++ "blobcolumn bytea );")
    = "create table " ++ BuildTableName noUnicode TestItemType ++ " (" ++
      String.concat ","
        (map (fun p => columnClause noUnicode (fst p) (snd p))
             (combine (tFields TestItemType) types)) ++ ");".
Proof.
  apply (proj2 (buildCreateStatement_identity_column noUnicode TestItemType
                  eq_refl)).
  reflexivity.
Defined.

(** The identity type goes to a field whose name is not "ID", and a field
    called "ID" has no constraint unless its tag gives one. *)
Lemma buildCreateStatement_id_any_case :
  Name (mkField "Id" "" stringType []) <> "ID" /\
  buildCreateStatement noUnicode LowerIdType
  = Returns (Ok "create table accounts (id bigserial );") /\
  buildCreateStatement noUnicode UntaggedIDType
  = Returns (Ok "create table entrys (id bigserial );").
Proof. split; [discriminate | split; reflexivity]. Qed.

Lemma mapColumnType_string_witness :
  mapColumnType (mkField "StringColumn" "" stringType [("pglen", "25")])
  = Returns (Ok "varchar(25)")
  /\ mapColumnType (mkField "StringColumn" "" stringType [])
     = Returns (Err (errNew "len tag not present for field StringColumn"))
  /\ mapColumnType (mkField "StringColumn" "" stringType [("pglen", "2x")])
     = Returns (Err (errNew
         "len tag of field StringColumn cannot be converted to int")).
Proof.
  split; [ | split].
  - exact (proj2 (proj2 (proj2 (mapColumnType_string
             (mkField "StringColumn" "" stringType [("pglen", "25")])
             eq_refl)))
           25 ltac:(vm_compute; split; discriminate) eq_refl).
  - exact (proj1 (mapColumnType_string
             (mkField "StringColumn" "" stringType []) eq_refl) eq_refl).
  - exact (proj1 (proj2 (mapColumnType_string
             (mkField "StringColumn" "" stringType [("pglen", "2x")])
             eq_refl)) ltac:(discriminate) ErrSyntax eq_refl).
Defined.

(** A length of zero and a negative length are accepted. *)
Lemma mapColumnType_accepts_nonpositive_length :
  mapColumnType (mkField "Title" "" stringType [("pglen", "0")])
  = Returns (Ok "varchar(0)") /\
  mapColumnType (mkField "Title" "" stringType [("pglen", "-5")])
  = Returns (Ok "varchar(-5)").
Proof. split; reflexivity. Qed.

Lemma mapColumnType_unsupported_witness :
  mapColumnType (mkField "Flag" "" boolType [])
  = Returns (Err (errNew "unsupported field kind - bool")) /\
  forall name pkg tag,
    mapColumnType (mkField name pkg boolType tag)
    = mapColumnType (mkField "Flag" "" boolType []).
Proof.
  apply (mapColumnType_unsupported (mkField "Flag" "" boolType [])).
  - reflexivity.
  - discriminate.
Defined.

(** The error of an unsupported field does not mention the field. *)
Lemma mapColumnType_error_omits_field :
  mapColumnType (mkField "Flag" "" boolType [])
  = Returns (Err (errNew "unsupported field kind - bool")) /\
  contains "Flag" "unsupported field kind - bool" = false.
Proof. split; reflexivity. Qed.

Lemma UpdateOne_row_count_witness :
  UpdateOne noUnicode (answering 7 1)
            (VPointer (pointerTo TestItemType) (Some testObject))
  = Returns None
  /\ UpdateOne noUnicode (answering 7 0)
               (VPointer (pointerTo TestItemType) (Some testObject))
     = Returns (Some ErrUnexpectedRowCount).
Proof.
  split.
  - eapply (proj2 (UpdateOne_row_count noUnicode (answering 7 1)
                     (VPointer (pointerTo TestItemType) (Some testObject))));
      reflexivity.
  - apply (proj1 (UpdateOne_row_count noUnicode (answering 7 0)
                    (VPointer (pointerTo TestItemType) (Some testObject)))).
    eexists. eexists. split; [reflexivity | split; [reflexivity | ]].
    discriminate.
Defined.

Lemma BuildTableName_lower_plural_witness :
  noUpper (BuildTableName noUnicode TestItemType) = true /\
  String.length (BuildTableName noUnicode TestItemType)
  = S (String.length (tName TestItemType)).
Proof.
  apply (proj2 (proj2 (BuildTableName_lower_plural noUnicode TestItemType))).
  reflexivity.
Defined.

Lemma trailing_comma_when_ID_is_last_witness :
  (buildInsertStatement noUnicode TrailingIDType
   = Returns "insert into notes (title,) values ($1,) returning id;" /\
   buildUpdateStatement noUnicode TrailingIDType "where id = $1" 2
   = Returns ("update notes set Title = $2, where id = $1;", 3))
  /\
  (buildInsertStatement noUnicode TestItemType
   = Returns ("insert into testitems "
              ++ "(stringcolumn,intcolumn,timecolumn,blobcolumn) "
              ++ "values ($1,$2,$3,$4) returning id;") /\
   buildUpdateStatement noUnicode TestItemType "where id = $1" 2
   = Returns ("update testitems set StringColumn = $2,IntColumn = $3,"
              ++ "TimeColumn = $4,BLOBColumn = $5 where id = $1;", 6)).
Proof.
  split.
  - apply (proj1 (trailing_comma_when_ID_is_last noUnicode TrailingIDType
                    "where id = $1" 2 eq_refl ltac:(lia)
                    ltac:(vm_compute; discriminate)));
      [reflexivity | discriminate].
  - apply (proj2 (trailing_comma_when_ID_is_last noUnicode TestItemType
                    "where id = $1" 2 eq_refl ltac:(lia)
                    ltac:(vm_compute; discriminate))).
    reflexivity.
Defined.

(** With "ID" as the last and only field there is nothing to put a comma
    after. *)
Lemma no_trailing_comma_when_ID_is_alone :
  endsWithID (tFields OnlyIDType) = true /\
  buildInsertStatement noUnicode OnlyIDType
  = Returns "insert into tokens () values () returning id;" /\
  buildUpdateStatement noUnicode OnlyIDType "where id = $1" 2
  = Returns ("update tokens set  where id = $1;", 2).
Proof. split; [ | split]; reflexivity. Qed.

Lemma setIDValue_panics_on_other_kinds_witness :
  (exists msg,
      setIDValue (VPointer (pointerTo StringIDType) (Some stringIDObject)) 7
      = Panics msg) /\
  (forall r,
      setIDValue (VPointer (pointerTo StringIDType) (Some stringIDObject)) 7
      <> Returns r).
Proof.
  apply (setIDValue_panics_on_other_kinds
           (VPointer (pointerTo StringIDType) (Some stringIDObject)) 7
           (mkValue (Some stringIDObject) true false));
    reflexivity.
Defined.

Lemma buildSelectStatement_all_columns_witness :
  buildSelectStatement noUnicode TestItemType "where id = $1"
  = Returns ("select id,stringcolumn,intcolumn,timecolumn,blobcolumn "
             ++ "from testitems where id = $1;").
Proof.
  exact (buildSelectStatement_all_columns noUnicode TestItemType
           "where id = $1" eq_refl).
Defined.

Lemma buildCreateStatement_first_error_witness :
  buildCreateStatement noUnicode
    (structType "Flagged"
       [ mkField "ID" "" int64Type [("pgsql", "primary key")];
         mkField "Flag" "" boolType [];
         mkField "Title" "" stringType [] ])
  = Returns (Err (errNew "unsupported field kind - bool")).
Proof.
  apply (buildCreateStatement_first_error noUnicode
           (structType "Flagged"
              [ mkField "ID" "" int64Type [("pgsql", "primary key")];
                mkField "Flag" "" boolType [];
                mkField "Title" "" stringType [] ])
           [ mkField "ID" "" int64Type [("pgsql", "primary key")] ]
           [ mkField "Title" "" stringType [] ]
           (mkField "Flag" "" boolType [])).
  - reflexivity.
  - reflexivity.
  - constructor; [left; reflexivity | constructor].
  - discriminate.
  - reflexivity.
Defined.

(** ** Instances of the further properties *)

Lemma sameNamedType_refl (t : rtype) : sameNamedType t t = true.
Proof.
  unfold sameNamedType. rewrite !String.eqb_refl.
  unfold Kind_eqb.
  destruct (Kind_eq_dec (tKind t) (tKind t)); [reflexivity | congruence].
Qed.

Ltac readable_fields :=
  repeat (constructor; [(left; reflexivity) || (right; reflexivity) | ]);
  constructor.

Lemma buildStatementValues_non_identity_fields_witness :
  buildStatementValues (VPointer (pointerTo TestItemType) (Some testObject))
  = Returns (Ok [ VString stringType "lashbits.tech"; VInt intType 1337;
                  VStruct timeType []; VOther bytesType ])
  /\ List.length [ VString stringType "lashbits.tech"; VInt intType 1337;
                   VStruct timeType []; VOther bytesType ]
     = List.length (placeholders 1 4).
Proof.
  apply (buildStatementValues_non_identity_fields TestItemType
           [ VInt int64Type 0; VString stringType "lashbits.tech";
             VInt intType 1337; VStruct timeType []; VOther bytesType ]
           (VPointer (pointerTo TestItemType) (Some testObject)) true).
  - constructor; reflexivity.
  - reflexivity.
  - reflexivity.
  - readable_fields.
Defined.

Lemma buildStatementValues_unexported_field_witness :
  exists msg, buildStatementValues secretObject = Panics msg.
Proof.
  apply (buildStatementValues_unexported_field SecretType
           [ VInt int64Type 0; VString stringType "x" ] secretObject false).
  - constructor.
  - reflexivity.
  - reflexivity.
  - right. left. split; [reflexivity | discriminate].
Defined.




Lemma Insert_sets_identity_witness :
  Insert noUnicode (answering 7 1)
         (VPointer (pointerTo TestItemType) (Some testObject))
  = Returns (None,
             VPointer (pointerTo TestItemType)
               (Some (VStruct TestItemType testRow))).
Proof.
  apply (Insert_sets_identity noUnicode (answering 7 1)
           (pointerTo TestItemType) TestItemType
           [ VInt int64Type 0; VString stringType "lashbits.tech";
             VInt intType 1337; VStruct timeType []; VOther bytesType ]
           [ VString stringType "lashbits.tech"; VInt intType 1337;
             VStruct timeType []; VOther bytesType ]
           ("insert into testitems "
            ++ "(stringcolumn,intcolumn,timecolumn,blobcolumn) "
            ++ "values ($1,$2,$3,$4) returning id;")
           7 0%nat
           (mkField "ID" "" int64Type [("pgsql", "primary key")])
           (VInt int64Type 0) 64);
    try reflexivity.
  constructor; reflexivity.
Defined.

Lemma Insert_errors_are_wrapped_witness :
  VInt intType 5 = VInt intType 5 /\
  exists cause msg,
    errWrap (errNew "provided argument is not a pointer")
            "could not insert object"
    = errWrap cause msg /\
    String.prefix "could not insert object" msg = true.
Proof.
  apply (Insert_errors_are_wrapped noUnicode (answering 7 1)
           (VInt intType 5) (VInt intType 5)
           (errWrap (errNew "provided argument is not a pointer")
                    "could not insert object")).
  reflexivity.
Defined.

Lemma UpdateOne_sends_identity_first_witness :
  UpdateOne noUnicode (answering 7 0)
            (VPointer (pointerTo TestItemType)
               (Some (VStruct TestItemType testRow)))
  = Returns (Some ErrUnexpectedRowCount)
  /\ List.length (assignments 2 (updateNames (tFields TestItemType)))
     = List.length (nonIDValues (tFields TestItemType) testRow).
Proof.
  apply (UpdateOne_sends_identity_first noUnicode (answering 7 0)
           TestItemType testRow
           (VPointer (pointerTo TestItemType)
              (Some (VStruct TestItemType testRow)))
           true 0%nat int64Type 7 64 (mkCommandTag 0) None);
    try reflexivity.
  - constructor; reflexivity.
  - readable_fields.
  - vm_compute. discriminate.
Defined.


Lemma UpdateOne_value_or_pointer_witness :
  UpdateOne noUnicode (answering 7 1)
            (VPointer (pointerTo TestItemType)
               (Some (VStruct TestItemType testRow)))
  = UpdateOne noUnicode (answering 7 1) (VStruct TestItemType testRow).
Proof.
  apply (UpdateOne_value_or_pointer noUnicode (answering 7 1)
           (pointerTo TestItemType) TestItemType testRow);
    reflexivity.
Defined.

Lemma CreateTable_drops_before_deriving_witness :
  CreateTable noUnicode (answering 7 1) FlaggedType true
  = Returns (Some (errWrap (errNew "unsupported field kind - bool")
                           "could not create table flaggeds"),
             ["drop table if exists flaggeds cascade;"])
  /\ CreateTable noUnicode (answering 7 1) FlaggedType false
     = Returns (Some (errWrap (errNew "unsupported field kind - bool")
                              "could not create table flaggeds"), []).
Proof.
  apply (CreateTable_drops_before_deriving noUnicode (answering 7 1)
           FlaggedType (errNew "unsupported field kind - bool"));
    reflexivity.
Defined.

Lemma statements_address_one_table_witness :
  buildDeleteStatement noUnicode TestItemType "where id = $1"
  = "delete from testitems where id = $1;".
Proof.
  apply (statements_address_one_table noUnicode TestItemType
           "where id = $1" 2 eq_refl).
Defined.

Lemma getSliceValue_accepts_pointers_to_slices_witness :
  getSliceValue (VPointer (pointerTo bytesType) (Some (VOther bytesType)))
  = Ok (mkValue (Some (VOther bytesType)) true false).
Proof.
  apply (proj1 (getSliceValue_accepts_pointers_to_slices
                  (VPointer (pointerTo bytesType) (Some (VOther bytesType))))).
  exists (pointerTo bytesType), (VOther bytesType).
  repeat split.
Defined.

Lemma getSliceElemType_of_pointers_witness :
  getSliceElemType
    (VPointer (pointerTo (mkType "" "" Slice (Some (pointerTo TestItemType)) []))
       (Some (VOther (mkType "" "" Slice (Some (pointerTo TestItemType)) []))))
  = Returns (Ok TestItemType)
  /\ exists msg,
      getSliceElemType
        (VPointer (pointerTo (mkType "" "" Slice (Some TestItemType) []))
           (Some (VOther (mkType "" "" Slice (Some TestItemType) []))))
      = Panics msg.
Proof.
  split.
  - apply (proj1 (getSliceElemType_of_pointers
             (pointerTo (mkType "" "" Slice (Some (pointerTo TestItemType)) []))
             (mkType "" "" Slice (Some (pointerTo TestItemType)) [])
             (pointerTo TestItemType)
             (VOther (mkType "" "" Slice (Some (pointerTo TestItemType)) []))
             eq_refl eq_refl eq_refl eq_refl));
      reflexivity.
  - apply (proj2 (getSliceElemType_of_pointers
             (pointerTo (mkType "" "" Slice (Some TestItemType) []))
             (mkType "" "" Slice (Some TestItemType) [])
             TestItemType
             (VOther (mkType "" "" Slice (Some TestItemType) []))
             eq_refl eq_refl eq_refl eq_refl)).
    reflexivity.
Defined.

Ltac typed_fields := repeat (constructor; [reflexivity | ]); constructor.

Lemma setObjectFields_stores_all_fields_witness :
  setObjectFields sameNamedType
    (VPointer (pointerTo TestItemType) (Some testObject))
    (slotsHolding (tFields TestItemType) testRow)
  = Returns (None,
             VPointer (pointerTo TestItemType)
               (Some (VStruct TestItemType testRow))).
Proof.
  apply (setObjectFields_stores_all_fields sameNamedType sameNamedType_refl
           (pointerTo TestItemType) TestItemType
           [ VInt int64Type 0; VString stringType "lashbits.tech";
             VInt intType 1337; VStruct timeType []; VOther bytesType ]
           (slotsHolding (tFields TestItemType) testRow) testRow);
    try reflexivity.
  - typed_fields.
  - repeat (constructor; [eexists; split; reflexivity | ]); constructor.
  - typed_fields.
Defined.

Lemma setObjectFields_count_mismatch_witness :
  setObjectFields sameNamedType testObject []
  = Returns (Some (errNew
               "mismatch between number of fields and number of values"),
             testObject).
Proof.
  apply (setObjectFields_count_mismatch sameNamedType TestItemType
           [ VInt int64Type 0; VString stringType "lashbits.tech";
             VInt intType 1337; VStruct timeType []; VOther bytesType ]
           [] testObject false).
  - constructor.
  - reflexivity.
  - discriminate.
Defined.

Lemma setObjectFields_by_value_panics_witness :
  exists msg,
    setObjectFields sameNamedType testObject
                    (slotsHolding (tFields TestItemType) testRow)
    = Panics msg.
Proof.
  apply (setObjectFields_by_value_panics sameNamedType TestItemType
           [ VInt int64Type 0; VString stringType "lashbits.tech";
             VInt intType 1337; VStruct timeType []; VOther bytesType ]
           (slotsHolding (tFields TestItemType) testRow)).
  - reflexivity.
  - discriminate.
  - reflexivity.
Defined.

Lemma setObjectFields_unexported_field_panics_witness :
  exists msg,
    setObjectFields sameNamedType
      (VPointer (pointerTo SecretType) (Some secretObject))
      (slotsHolding (tFields SecretType)
         [ VInt int64Type 3; VString stringType "y" ])
    = Panics msg.
Proof.
  apply (setObjectFields_unexported_field_panics sameNamedType SecretType
           [ VInt int64Type 0; VString stringType "x" ]
           (slotsHolding (tFields SecretType)
              [ VInt int64Type 3; VString stringType "y" ])
           (VPointer (pointerTo SecretType) (Some secretObject)) true).
  - constructor; reflexivity.
  - reflexivity.
  - reflexivity.
  - right. left. discriminate.
Defined.

Lemma SelectOne_fills_record_witness :
  SelectOne noUnicode sameNamedType
    (answeringRows (tFields TestItemType) [testRow])
    (VPointer (pointerTo TestItemType) (Some testObject))
    "where id = $1" [VInt int64Type 7]
  = Returns (None,
             VPointer (pointerTo TestItemType)
               (Some (VStruct TestItemType testRow))).
Proof.
  apply (SelectOne_fills_record noUnicode sameNamedType sameNamedType_refl
           (answeringRows (tFields TestItemType) [testRow])
           (pointerTo TestItemType) TestItemType
           [ VInt int64Type 0; VString stringType "lashbits.tech";
             VInt intType 1337; VStruct timeType []; VOther bytesType ]
           testRow "where id = $1" [VInt int64Type 7]);
    try reflexivity.
  - constructor; reflexivity.
  - typed_fields.
  - typed_fields.
  - typed_fields.
Defined.

Lemma SelectOne_failed_scan_witness :
  SelectOne noUnicode sameNamedType
    (failingRows (tFields TestItemType) [] (errNew "no rows in result set"))
    testObject "where id = $1" [VInt int64Type 7]
  = Returns (Some (errWrap (errNew "no rows in result set")
                           "could not select object of type TestItem"),
             testObject).
Proof.
  apply (SelectOne_failed_scan noUnicode sameNamedType
           (failingRows (tFields TestItemType) []
              (errNew "no rows in result set"))
           TestItemType
           [ VInt int64Type 0; VString stringType "lashbits.tech";
             VInt intType 1337; VStruct timeType []; VOther bytesType ]
           (map (fun field => New (FType field)) (tFields TestItemType))
           testObject false "where id = $1" [VInt int64Type 7]
           (errNew "no rows in result set"));
    try reflexivity.
  constructor.
Defined.

Lemma SelectOne_by_value_panics_witness :
  exists msg,
    SelectOne noUnicode sameNamedType
      (answeringRows (tFields TestItemType) [testRow])
      testObject "where id = $1" [VInt int64Type 7]
    = Panics msg.
Proof.
  apply (SelectOne_by_value_panics noUnicode sameNamedType
           (answeringRows (tFields TestItemType) [testRow])
           TestItemType
           [ VInt int64Type 0; VString stringType "lashbits.tech";
             VInt intType 1337; VStruct timeType []; VOther bytesType ]
           (slotsHolding (tFields TestItemType) testRow)
           "where id = $1" [VInt int64Type 7]);
    try reflexivity.
  discriminate.
Defined.

Lemma Select_returns_rows_witness :
  Select noUnicode sameNamedType
    (answeringRows (tFields TestItemType) [testRow; testRow])
    TestItemType "" []
  = Returns (Ok [VStruct TestItemType testRow; VStruct TestItemType testRow])
  /\ Select noUnicode sameNamedType
       (answeringRows (tFields TestItemType) []) TestItemType "" []
     = Returns (Ok []).
Proof.
  split.
  - apply (Select_returns_rows noUnicode sameNamedType sameNamedType_refl
             (answeringRows (tFields TestItemType) [testRow; testRow])
             TestItemType "" []
             [scanning (tFields TestItemType) testRow;
              scanning (tFields TestItemType) testRow]
             [testRow; testRow]);
      try reflexivity.
    + typed_fields.
    + repeat (constructor; [split; [reflexivity | typed_fields] | ]).
      constructor.
  - apply (Select_returns_rows noUnicode sameNamedType sameNamedType_refl
             (answeringRows (tFields TestItemType) [])
             TestItemType "" [] [] []);
      try reflexivity.
    + typed_fields.
    + constructor.
Defined.

Lemma Select_failing_row_witness :
  Select noUnicode sameNamedType
    (failingRows (tFields TestItemType) [testRow] (errNew "broken row"))
    TestItemType "" []
  = Returns (Err (errWrap (errNew "broken row")
                          "could not select objects of type TestItem")).
Proof.
  apply (Select_failing_row noUnicode sameNamedType sameNamedType_refl
           (failingRows (tFields TestItemType) [testRow] (errNew "broken row"))
           TestItemType "" []
           [scanning (tFields TestItemType) testRow] []
           (failingScan (errNew "broken row"))
           [testRow]
           (map (fun field => New (FType field)) (tFields TestItemType))
           (errNew "broken row"));
    try reflexivity.
  - typed_fields.
  - repeat (constructor; [split; [reflexivity | typed_fields] | ]).
    constructor.
Defined.

Lemma builders_panic_without_struct_witness :
  (exists msg,
      buildCreateStatement noUnicode (pointerTo TestItemType) = Panics msg) /\
  (exists msg,
      buildSelectStatement noUnicode (pointerTo TestItemType) "" = Panics msg) /\
  (exists msg,
      buildInsertStatement noUnicode (pointerTo TestItemType) = Panics msg) /\
  (exists msg,
      buildUpdateStatement noUnicode (pointerTo TestItemType) "" 2
      = Panics msg) /\
  (forall db, exists msg,
      CreateTable noUnicode db (pointerTo TestItemType) false = Panics msg) /\
  (forall q args, exists msg,
      Select noUnicode sameNamedType q (pointerTo TestItemType) "" args
      = Panics msg).
Proof.
  apply (builders_panic_without_struct noUnicode sameNamedType
           (pointerTo TestItemType) "" 2).
  discriminate.
Defined.
